(** * Settings form and slogan tool: a shallow embedding

    Embedded sources:
    - [src/components/profile-settings.tsx]: the [ProfileSettings] component
      ([MOCK_SETTINGS], [settingsFormSchema], [fetchSettings], [onSubmit]);
    - [src/unnamed/part_000]: the [generateSlogan] tool.

    The component is single-threaded and event driven. Each asynchronous
    function is embedded as one atomic computation in a state-and-exception
    monad; what the network answers is an argument of the computation. *)

From Stdlib Require Import QArith.
From stdpp Require Import gmap strings list fin_maps pretty.

Local Open Scope string_scope.
Local Open Scope list_scope.

(** ** JavaScript values *)

(** A JavaScript number. A finite double is represented by the rational it
    denotes, so the comparisons below are exact. *)
Inductive number : Type :=
  | NaN
  | Infinity (negative : bool)
  | Finite (q : Q).

(** [a < b] on numbers; any comparison with [NaN] is false. *)
Definition num_lt (a b : number) : bool :=
  match a, b with
  | NaN, _ | _, NaN => false
  | Finite x, Finite y => negb (Qle_bool y x)
  | Finite _, Infinity neg => negb neg
  | Infinity neg, Finite _ => neg
  | Infinity na, Infinity nb => na && negb nb
  end.

(** [a <= b] on numbers. *)
Definition num_le (a b : number) : bool :=
  match a, b with
  | NaN, _ | _, NaN => false
  | Finite x, Finite y => Qle_bool x y
  | Finite _, Infinity neg => negb neg
  | Infinity neg, Finite _ => neg
  | Infinity na, Infinity nb => na || negb nb
  end.

Definition num_gt (a b : number) : bool := num_lt b a.
Definition num_ge (a b : number) : bool := num_le b a.

(** [Number.isInteger]. *)
Definition Number_isInteger (n : number) : bool :=
  match n with
  | Finite q => (Qnum q mod Zpos (Qden q) =? 0)%Z
  | _ => false
  end.

(** A JavaScript value as JSON or a form field can hold it. The properties
    of an object are listed in enumeration order. *)
#[warnings="-register-all"]
Inductive JsValue : Type :=
  | JUndefined
  | JNull
  | JBool (b : bool)
  | JNum (n : number)
  | JStr (s : string)
  | JArr (items : list JsValue)
  | JObj (props : list (string * JsValue)).

(** [ToBoolean]: the truthiness used by [if (v)] and [!v]. *)
Definition ToBoolean (v : JsValue) : bool :=
  match v with
  | JUndefined | JNull => false
  | JBool b => b
  | JNum NaN => false
  | JNum (Infinity _) => true
  | JNum (Finite q) => negb (Qeq_bool q 0)
  | JStr s => negb (String.eqb s "")
  | JArr _ | JObj _ => true
  end.

(** What a [throw] carries: an [Error] instance with its message, or
    something that is not an [Error]. *)
Inductive Thrown : Type :=
  | ErrorObj (message : string)
  | NonError (v : JsValue).

(** First binding of a key in a property list. *)
Fixpoint assoc (k : string) (props : list (string * JsValue)) : option JsValue :=
  match props with
  | [] => None
  | (k', v) :: rest => if String.eqb k k' then Some v else assoc k rest
  end.

(** The property read [data.settings]. Reading a property of [null] or
    [undefined] throws a [TypeError]; arrays, strings, numbers and booleans
    have no property of that name. *)
Definition data_settings (data : JsValue) : Thrown + JsValue :=
  match data with
  | JUndefined =>
      inl (ErrorObj "Cannot read properties of undefined (reading 'settings')")
  | JNull =>
      inl (ErrorObj "Cannot read properties of null (reading 'settings')")
  | JObj props => inr (default JUndefined (assoc "settings" props))
  | _ => inr JUndefined
  end.

(** Keys [0], [1], ... of an array-like value, as [Object.entries] names
    them. *)
Definition index_entries (items : list JsValue) : list (string * JsValue) :=
  imap (fun (i : nat) v => (pretty i, v)) items.

(** [Object.entries(v)]: the own enumerable string-keyed properties in
    enumeration order. Only called on truthy values in this program. *)
Definition Object_entries (v : JsValue) : list (string * JsValue) :=
  match v with
  | JObj props => props
  | JArr items => index_entries items
  | JStr s =>
      index_entries
        ((fun c => JStr (String c EmptyString)) <$> String.list_ascii_of_string s)
  | _ => []
  end.

(** ** The component's state *)

Inductive ToastType : Type := toast_success | toast_error.

Record Toast : Type := mkToast {
  toast_type : ToastType;
  description : string;
}.

Record Request : Type := mkRequest {
  req_url : string;
  req_method : string;
  req_headers : list (string * string);
  (** the value whose JSON text is the request body *)
  req_body : option JsValue;
}.

(** Callbacks handed to [setTimeout]. *)
Inductive TimerCallback : Type :=
  | MockUpdateDone.

Record FieldError : Type := mkFieldError {
  message : string;
}.

Record State : Type := mkState {
  isLoading : bool;
  useMockData : bool;
  (** the edit buffer: the field values held by [useForm] *)
  values : gmap string JsValue;
  (** [formState.errors] *)
  errors : gmap string FieldError;
  toasts : list Toast;
  requests : list Request;
  timers : list (nat * TimerCallback);
  console : list (string * Thrown);
}.

Definition defaultValues : gmap string JsValue :=
  <["presencePenalty" := JUndefined]>
  (<["frequencyPenalty" := JUndefined]>
  (<["topP" := JUndefined]>
  (<["maxTokens" := JUndefined]>
  (<["temperature" := JNum (Finite (7 # 10))]> ∅)))).

(** [register(name)] on an input at mount: the field takes its default
    value; when that is [undefined] the input is empty and the field takes
    the input's text, the empty string. *)
Definition register (name : string) (m : gmap string JsValue)
  : gmap string JsValue :=
  match default JUndefined (m !! name) with
  | JUndefined => <[name := JStr ""]> m
  | _ => m
  end.

(** The field values once the five inputs of the form are registered. *)
Definition mountValues : gmap string JsValue :=
  foldr register defaultValues
    ["temperature"; "maxTokens"; "topP"; "frequencyPenalty";
     "presencePenalty"].

(** The state in which the effect of the mount runs: [useState(true)],
    [useState(false)], and [useForm({ defaultValues })] with its inputs
    registered. *)
Definition initial_state : State :=
  {| isLoading := true; useMockData := false;
     values := mountValues; errors := ∅;
     toasts := []; requests := []; timers := []; console := [] |}.

(** ** State and exception monad *)

Definition M (A : Type) : Type := State → (Thrown + A) * State.

Definition ret {A} (a : A) : M A := fun st => (inr a, st).

Definition bind {A B} (m : M A) (k : A → M B) : M B :=
  fun st =>
    match m st with
    | (inl e, st') => (inl e, st')
    | (inr a, st') => k a st'
    end.

Definition throw {A} (e : Thrown) : M A := fun st => (inl e, st).

(** [try { body } catch (error) { handler error }] *)
Definition try_catch {A} (body : M A) (handler : Thrown → M A) : M A :=
  fun st =>
    match body st with
    | (inl e, st') => handler e st'
    | r => r
    end.

(** [... finally { cleanup }] *)
Definition finally {A} (body : M A) (cleanup : M unit) : M A :=
  fun st =>
    match body st with
    | (r, st') =>
        match cleanup st' with
        | (inl e, st'') => (inl e, st'')
        | (inr _, st'') => (r, st'')
        end
    end.

Definition lift {A} (r : Thrown + A) : M A := fun st => (r, st).

Definition modify (f : State → State) : M unit := fun st => (inr tt, f st).

Definition gets {A} (f : State → A) : M A := fun st => (inr (f st), st).

Notation "'let*' x ':=' m 'in' k" := (bind m (fun x => k))
  (at level 10, x pattern, m at level 100, k at level 200).
Notation "m ';;' k" := (bind m (fun _ => k))
  (at level 100, k at level 200, right associativity).

(** [forEach]: run the body on every element in order. *)
Fixpoint forEach {A} (l : list A) (body : A → M unit) : M unit :=
  match l with
  | [] => ret tt
  | x :: rest => body x ;; forEach rest body
  end.

(** When [b] holds run [m], else do nothing. *)
Definition when (b : bool) (m : M unit) : M unit :=
  if b then m else ret tt.

Definition exec {A} (m : M A) (st : State) : State := snd (m st).

(** ** State setters, notification sink, timers and network *)

Definition setIsLoading (b : bool) : M unit :=
  modify (fun st =>
    {| isLoading := b; useMockData := useMockData st; values := values st;
       errors := errors st; toasts := toasts st; requests := requests st;
       timers := timers st; console := console st |}).

Definition setUseMockData (b : bool) : M unit :=
  modify (fun st =>
    {| isLoading := isLoading st; useMockData := b; values := values st;
       errors := errors st; toasts := toasts st; requests := requests st;
       timers := timers st; console := console st |}).

Definition with_values (m : gmap string JsValue) (st : State) : State :=
  {| isLoading := isLoading st; useMockData := useMockData st;
     values := m; errors := errors st; toasts := toasts st;
     requests := requests st; timers := timers st; console := console st |}.

(** A name that [useForm] takes as one key: word characters only. Any
    other name (with a dot, a bracket or a quote) is parsed as a path into
    nested values. *)
Definition is_word_char (c : Ascii.ascii) : bool :=
  let n := Ascii.nat_of_ascii c in
  ((48 <=? n) && (n <=? 57) || (65 <=? n) && (n <=? 90)
   || (97 <=? n) && (n <=? 122) || (n =? 95))%nat.

Definition isKey (name : string) : bool :=
  forallb is_word_char (String.list_ascii_of_string name).

(** A plain field name: one key, and none of the names of the prototype
    chain, which a write may skip. *)
Definition plain_name (name : string) : bool :=
  isKey name
  && negb (existsb (String.eqb name) ["__proto__"; "constructor"; "prototype"]).

Definition setErrors (e : gmap string FieldError) : M unit :=
  modify (fun st =>
    {| isLoading := isLoading st; useMockData := useMockData st;
       values := values st; errors := e; toasts := toasts st;
       requests := requests st; timers := timers st;
       console := console st |}).

(** [toast({ type, description })]: fire and forget. *)
Definition toast (t : Toast) : M unit :=
  modify (fun st =>
    {| isLoading := isLoading st; useMockData := useMockData st;
       values := values st; errors := errors st;
       toasts := toasts st ++ [t]; requests := requests st;
       timers := timers st; console := console st |}).

Definition console_error (label : string) (e : Thrown) : M unit :=
  modify (fun st =>
    {| isLoading := isLoading st; useMockData := useMockData st;
       values := values st; errors := errors st; toasts := toasts st;
       requests := requests st; timers := timers st;
       console := console st ++ [(label, e)] |}).

(** [setTimeout(callback, delay)]: the callback is queued, not run. *)
Definition setTimeout (cb : TimerCallback) (delay : nat) : M unit :=
  modify (fun st =>
    {| isLoading := isLoading st; useMockData := useMockData st;
       values := values st; errors := errors st; toasts := toasts st;
       requests := requests st; timers := timers st ++ [(delay, cb)];
       console := console st |}).

Definition clearTimers : M unit :=
  modify (fun st =>
    {| isLoading := isLoading st; useMockData := useMockData st;
       values := values st; errors := errors st; toasts := toasts st;
       requests := requests st; timers := []; console := console st |}).

(** A settled [fetch]: the promise rejects (transport error), or resolves to
    a response whose [json()] either yields a value or rejects. *)
Record Response : Type := mkResponse {
  ok : bool;
  json : Thrown + JsValue;
}.

Inductive FetchOutcome : Type :=
  | fetch_rejected (e : Thrown)
  | fetch_resolved (r : Response).

(** [fetch(url, init)]: the request goes out, then the promise settles as
    the network decides. *)
Definition fetch (net : FetchOutcome) (req : Request) : M Response :=
  modify (fun st =>
    {| isLoading := isLoading st; useMockData := useMockData st;
       values := values st; errors := errors st; toasts := toasts st;
       requests := requests st ++ [req]; timers := timers st;
       console := console st |}) ;;
  match net with
  | fetch_rejected e => throw e
  | fetch_resolved r => ret r
  end.

(** ** The settings model and its loader *)

Definition MOCK_SETTINGS : JsValue :=
  JObj [ ("temperature", JNum (Finite (7 # 10)));
         ("maxTokens", JNum (Finite (4000 # 1)));
         ("topP", JNum (Finite (95 # 100)));
         ("frequencyPenalty", JNum (Finite (0 # 1)));
         ("presencePenalty", JNum (Finite (0 # 1))) ].

(** [v !== null] *)
Definition not_null (v : JsValue) : bool :=
  match v with JNull => false | _ => true end.

(** [key !== 'userId' && key !== 'createdAt' && key !== 'updatedAt'] *)
Definition not_bookkeeping (key : string) : bool :=
  negb (String.eqb key "userId") && negb (String.eqb key "createdAt")
  && negb (String.eqb key "updatedAt").

(** ** The validation library as the schema uses it *)

Module z.

Inductive ZodCheck : Type :=
  | check_min (value : number) (inclusive : bool)
  | check_max (value : number) (inclusive : bool)
  | check_int.

Record ZodNumber : Type := mkZodNumber {
  coerce : bool;
  checks : list ZodCheck;
}.

Inductive ZodIssue : Type :=
  | invalid_type (expected received : string)
  | too_small (minimum : number) (inclusive : bool)
  | too_big (maximum : number) (inclusive : bool).

Definition addCheck (c : ZodCheck) (s : ZodNumber) : ZodNumber :=
  {| coerce := coerce s; checks := checks s ++ [c] |}.

(** [z.coerce.number()] *)
Definition coerce_number : ZodNumber := {| coerce := true; checks := [] |}.

(** [.min(value)], [.max(value)], [.positive()], [.int()] *)
Definition min (value : Q) : ZodNumber → ZodNumber :=
  addCheck (check_min (Finite value) true).
Definition max (value : Q) : ZodNumber → ZodNumber :=
  addCheck (check_max (Finite value) true).
Definition positive : ZodNumber → ZodNumber :=
  addCheck (check_min (Finite 0) false).
Definition int : ZodNumber → ZodNumber := addCheck check_int.

(** The type tag the library reports for a value. *)
Definition getParsedType (v : JsValue) : string :=
  match v with
  | JUndefined => "undefined"
  | JNull => "null"
  | JBool _ => "boolean"
  | JNum NaN => "nan"
  | JNum _ => "number"
  | JStr _ => "string"
  | JArr _ => "array"
  | JObj _ => "object"
  end.

(** One refinement run on a number: the issues it raises. *)
Definition runCheck (n : number) (c : ZodCheck) : list ZodIssue :=
  match c with
  | check_int =>
      if Number_isInteger n then [] else [invalid_type "integer" "float"]
  | check_min value inclusive =>
      if (if inclusive then num_lt n value else num_le n value)
      then [too_small value inclusive] else []
  | check_max value inclusive =>
      if (if inclusive then num_gt n value else num_ge n value)
      then [too_big value inclusive] else []
  end.

End z.

Notation "s |> f" := (f s) (at level 45, left associativity, only parsing).

Definition settingsFormSchema_temperature : z.ZodNumber :=
  z.coerce_number |> z.min 0 |> z.max 2.
Definition settingsFormSchema_maxTokens : z.ZodNumber :=
  z.coerce_number |> z.positive |> z.int.
Definition settingsFormSchema_topP : z.ZodNumber :=
  z.coerce_number |> z.min 0 |> z.max 1.
Definition settingsFormSchema_frequencyPenalty : z.ZodNumber :=
  z.coerce_number |> z.min (-2) |> z.max 2.
Definition settingsFormSchema_presencePenalty : z.ZodNumber :=
  z.coerce_number |> z.min (-2) |> z.max 2.

(** [z.infer<typeof settingsFormSchema>]: the parsed form. *)
Record SettingsForm : Type := mkSettingsForm {
  temperature : number;
  maxTokens : option number;
  topP : option number;
  frequencyPenalty : option number;
  presencePenalty : option number;
}.

(** [JSON.stringify] writes a number that is not finite as [null] and leaves
    out a property whose value is [undefined]. *)
Definition JSON_number (n : number) : JsValue :=
  match n with
  | Finite _ => JNum n
  | _ => JNull
  end.

Definition JSON_optional (key : string) (v : option number)
  : list (string * JsValue) :=
  match v with
  | Some n => [(key, JSON_number n)]
  | None => []
  end.

(** The value whose JSON text [JSON.stringify(data)] produces. *)
Definition JSON_stringify (data : SettingsForm) : JsValue :=
  JObj (("temperature", JSON_number (temperature data))
        :: JSON_optional "maxTokens" (maxTokens data)
        ++ JSON_optional "topP" (topP data)
        ++ JSON_optional "frequencyPenalty" (frequencyPenalty data)
        ++ JSON_optional "presencePenalty" (presencePenalty data)).

(** ** The slogan tool *)

Module Slogan.

(** [!v] for a variable of [process.env]: unset, or set to the empty
    string. *)
Definition falsy (v : option string) : bool :=
  match v with
  | None => true
  | Some s => String.eqb s ""
  end.

(** [execute({ prompt })], run with the environment [env] and the network
    answer [net]: the requests issued, and the value returned or thrown. *)
Definition execute (env : gmap string string) (net : FetchOutcome)
  (prompt : string) : list Request * (Thrown + JsValue) :=
  let apiUrl := env !! "NOVA_AI_API_URL" in
  let apiKey := env !! "NOVA_AI_API_KEY" in
  if falsy apiUrl || falsy apiKey then
    ([], inl (ErrorObj "NovaAI is not configured"))
  else
    let request :=
      {| req_url := default "" apiUrl;
         req_method := "POST";
         req_headers :=
           [("Content-Type", "application/json");
            ("Authorization", ("Bearer " ++ default "" apiKey)%string)];
         req_body := Some (JObj [("prompt", JStr prompt)]) |} in
    match net with
    | fetch_rejected e => ([request], inl e)
    | fetch_resolved response => ([request], json response)
    end.

(** The tool throws before any request is issued. *)
Definition fails_immediately (env : gmap string string) (net : FetchOutcome)
  (prompt : string) : Prop :=
  ∃ e, execute env net prompt = ([], inl e).

(** A variable of the environment is unset, or set to the empty string. *)
Definition unset_or_empty (v : option string) : Prop :=
  v = None ∨ v = Some "".

(** The authenticated request the tool sends. *)
Definition slogan_request (url key prompt : string) : Request :=
  {| req_url := url;
     req_method := "POST";
     req_headers :=
       [("Content-Type", "application/json");
        ("Authorization", ("Bearer " ++ key)%string)];
     req_body := Some (JObj [("prompt", JStr prompt)]) |}.

(** Sample environments: both variables set; the URL set but empty. *)
Definition sample_env : gmap string string :=
  <["NOVA_AI_API_URL" := "https://nova.example/v1/slogan"]>
  (<["NOVA_AI_API_KEY" := "secret"]> ∅).

Definition sample_env_empty_url : gmap string string :=
  <["NOVA_AI_API_URL" := ""]> (<["NOVA_AI_API_KEY" := "secret"]> ∅).

Definition sample_answer : FetchOutcome :=
  fetch_resolved {| ok := true; json := inr (JObj [("slogan", JStr "Just ship it")]) |}.

End Slogan.

(** ** The form component *)

Section Component.

(** Three built-ins of the language are parameters of the development: the
    numeric value of a string, the string an array or object converts to,
    and the decimal text of a number. *)
Variable StringToNumber : string → number.
Variable ToPrimitive_string : JsValue → string.
Variable Number_toString : number → string.

(** A further parameter is what [setValue] of [useForm] does to the field
    values for a name that is not plain: such a name is a path, and the
    write goes into a nested value. *)
Variable set_path :
  gmap string JsValue → string → JsValue → gmap string JsValue.

(** The field values after [setValue(name, value)]: under a plain name the
    value is stored as the field of that name. *)
Definition set_field (m : gmap string JsValue) (name : string)
  (value : JsValue) : gmap string JsValue :=
  if plain_name name then <[name := value]> m else set_path m name value.

(** [setValue(key, value)] of [useForm]: writes into the edit buffer. *)
Definition setValue (key : string) (value : JsValue) : M unit :=
  modify (fun st => with_values (set_field (values st) key value) st).

Definition fetchSettings (net : FetchOutcome) : M unit :=
  setIsLoading true ;;
  finally
    (try_catch
       (let* response :=
          fetch net {| req_url := "/api/profile/settings"; req_method := "GET";
                       req_headers := []; req_body := None |} in
        when (negb (ok response))
          (throw (ErrorObj "Failed to fetch settings")) ;;
        let* data := lift (json response) in
        let* settings := lift (data_settings data) in
        when (ToBoolean settings)
          (forEach (Object_entries settings) (fun '(key, value) =>
             when (not_null value && not_bookkeeping key)
               (setValue key value))) ;;
        setUseMockData false)
       (fun error =>
          console_error "Error fetching settings:" error ;;
          setUseMockData true ;;
          forEach (Object_entries MOCK_SETTINGS) (fun '(key, value) =>
            when (not_null value) (setValue key value)) ;;
          toast {| toast_type := toast_error;
                   description :=
                     "Using sample settings: Database connection unavailable" |}))
    (setIsLoading false).


(** [Number(v)] *)
Definition ToNumber (v : JsValue) : number :=
  match v with
  | JUndefined => NaN
  | JNull => Finite 0
  | JBool b => if b then Finite 1 else Finite 0
  | JNum n => n
  | JStr s => StringToNumber s
  | JArr _ | JObj _ => StringToNumber (ToPrimitive_string v)
  end.

(** Parsing with a number schema: coerce when asked, refuse what is not a
    number (also [NaN]), then run every check and collect the issues. *)
Definition ZodNumber_parse (s : z.ZodNumber) (input : JsValue)
  : list z.ZodIssue + number :=
  let data := if z.coerce s then JNum (ToNumber input) else input in
  match data with
  | JNum NaN => inl [z.invalid_type "number" "nan"]
  | JNum n =>
      match flat_map (z.runCheck n) (z.checks s) with
      | [] => inr n
      | issues => inl issues
      end
  | _ => inl [z.invalid_type "number" (z.getParsedType data)]
  end.

(** [.optional()]: [undefined] is accepted as it is. *)
Definition ZodOptional_parse (s : z.ZodNumber) (input : JsValue)
  : list z.ZodIssue + option number :=
  match input with
  | JUndefined => inr None
  | _ =>
      match ZodNumber_parse s input with
      | inl issues => inl issues
      | inr n => inr (Some n)
      end
  end.

(** The library's default English messages. *)
Definition issue_message (i : z.ZodIssue) : string :=
  match i with
  | z.invalid_type expected received =>
      if String.eqb received "undefined" then "Required"
      else ("Expected " ++ expected ++ ", received " ++ received)%string
  | z.too_small minimum inclusive =>
      ("Number must be "
       ++ (if inclusive then "greater than or equal to " else "greater than ")
       ++ Number_toString minimum)%string
  | z.too_big maximum inclusive =>
      ("Number must be "
       ++ (if inclusive then "less than or equal to" else "less than")
       ++ " " ++ Number_toString maximum)%string
  end.

Definition issues_at {A} (path : string) (r : list z.ZodIssue + A)
  : list (string * z.ZodIssue) :=
  match r with
  | inl issues => (fun i => (path, i)) <$> issues
  | inr _ => []
  end.

(** Reading a field of the submitted values; a missing field reads as
    [undefined]. *)
Definition field (input : gmap string JsValue) (key : string) : JsValue :=
  default JUndefined (input !! key).

(** [settingsFormSchema.safeParse(input)]: every field of the shape is
    parsed, in the shape's order; the issues carry the field's name as path;
    keys outside the shape are stripped. *)
Definition settingsFormSchema_safeParse (input : gmap string JsValue)
  : list (string * z.ZodIssue) + SettingsForm :=
  let r1 := ZodNumber_parse settingsFormSchema_temperature
              (field input "temperature") in
  let r2 := ZodOptional_parse settingsFormSchema_maxTokens
              (field input "maxTokens") in
  let r3 := ZodOptional_parse settingsFormSchema_topP
              (field input "topP") in
  let r4 := ZodOptional_parse settingsFormSchema_frequencyPenalty
              (field input "frequencyPenalty") in
  let r5 := ZodOptional_parse settingsFormSchema_presencePenalty
              (field input "presencePenalty") in
  match r1, r2, r3, r4, r5 with
  | inr t, inr mt, inr tp, inr fp, inr pp =>
      inr {| temperature := t; maxTokens := mt; topP := tp;
             frequencyPenalty := fp; presencePenalty := pp |}
  | _, _, _, _, _ =>
      inl (issues_at "temperature" r1 ++ issues_at "maxTokens" r2
           ++ issues_at "topP" r3 ++ issues_at "frequencyPenalty" r4
           ++ issues_at "presencePenalty" r5)
  end.

(** The resolver's error object: per path, the first issue's message. *)
Fixpoint parseErrorSchema (issues : list (string * z.ZodIssue))
  (acc : gmap string FieldError) : gmap string FieldError :=
  match issues with
  | [] => acc
  | (path, i) :: rest =>
      parseErrorSchema rest
        (match acc !! path with
         | Some _ => acc
         | None => <[path := {| message := issue_message i |}]> acc
         end)
  end.

(** [zodResolver(settingsFormSchema)] *)
Definition zodResolver (fieldValues : gmap string JsValue)
  : gmap string FieldError + SettingsForm :=
  match settingsFormSchema_safeParse fieldValues with
  | inl issues => inl (parseErrorSchema issues ∅)
  | inr data => inr data
  end.

(** ** Submitting *)

Definition runCallback (cb : TimerCallback) : M unit :=
  match cb with
  | MockUpdateDone =>
      setIsLoading false ;;
      toast {| toast_type := toast_success;
               description := "Settings updated in mock mode" |}
  end.

(** The pending timers expire: their callbacks run in order. *)
Definition runTimers : M unit :=
  let* pending := gets timers in
  clearTimers ;;
  forEach pending (fun '(_, cb) => runCallback cb).

Definition onSubmit (net : FetchOutcome) (data : SettingsForm) : M unit :=
  setIsLoading true ;;
  let* mock := gets useMockData in
  if mock then
    setTimeout MockUpdateDone 500
  else
    finally
      (try_catch
         (let* response :=
            fetch net {| req_url := "/api/profile/settings";
                         req_method := "PUT";
                         req_headers :=
                           [("Content-Type", "application/json")];
                         req_body := Some (JSON_stringify data) |} in
          when (negb (ok response))
            (throw (ErrorObj "Failed to update settings")) ;;
          toast {| toast_type := toast_success;
                   description := "Settings updated successfully" |})
         (fun error =>
            console_error "Error updating settings:" error ;;
            toast {| toast_type := toast_error;
                     description :=
                       match error with
                       | ErrorObj message => message
                       | NonError _ => "Failed to update settings"
                       end |}))
      (setIsLoading false).

(** [handleSubmit(onSubmit)]: the resolver runs on the edit buffer; with
    errors they are stored and the handler is not called, otherwise the
    handler receives the parsed values. *)
Definition handleSubmit (net : FetchOutcome) : M unit :=
  let* fieldValues := gets values in
  match zodResolver fieldValues with
  | inl errs => setErrors errs
  | inr data => setErrors ∅ ;; onSubmit net data
  end.

(** ** Vocabulary of the statements *)

(** A load fails when the request is rejected, the response is not a
    success, its body is not JSON, or the body is [null]. *)
Definition load_fails (net : FetchOutcome) : bool :=
  match net with
  | fetch_rejected _ => true
  | fetch_resolved r =>
      negb (ok r)
      || match json r with
         | inl _ => true
         | inr data =>
             match data_settings data with
             | inl _ => true
             | inr _ => false
             end
         end
  end.

(** What the [catch] block of [fetchSettings] receives. *)
Definition load_error (net : FetchOutcome) : Thrown :=
  match net with
  | fetch_rejected e => e
  | fetch_resolved r =>
      if negb (ok r) then ErrorObj "Failed to fetch settings"
      else match json r with
           | inl e => e
           | inr data =>
               match data_settings data with
               | inl e => e
               | inr _ => ErrorObj ""
               end
           end
  end.

Definition get_settings_request : Request :=
  {| req_url := "/api/profile/settings"; req_method := "GET";
     req_headers := []; req_body := None |}.

Definition sample_settings_toast : Toast :=
  {| toast_type := toast_error;
     description := "Using sample settings: Database connection unavailable" |}.

(** One step of the copy loops: the entry is written when the guard holds. *)
Definition write_entry (guard : string → JsValue → bool)
  (m : gmap string JsValue) (kv : string * JsValue) : gmap string JsValue :=
  if guard kv.1 kv.2 then set_field m kv.1 kv.2 else m.

(** The guard of the copy loop on the success path. *)
Definition copied (key : string) (value : JsValue) : bool :=
  not_null value && not_bookkeeping key.


(** Every field name of the record is plain. *)
Definition plain_names (props : list (string * JsValue)) : bool :=
  forallb (fun kv => plain_name kv.1) props.

(** The domains of the data model: [temperature] in [0, 2], [maxTokens] a
    positive integer, [topP] in [0, 1], both penalties in [-2, 2]. *)
Definition within (lo hi : Q) (n : number) : bool :=
  match n with
  | Finite q => Qle_bool lo q && Qle_bool q hi
  | _ => false
  end.

Definition positive_integer (n : number) : bool :=
  match n with
  | Finite q => negb (Qle_bool q 0) && (Qnum q mod Zpos (Qden q) =? 0)%Z
  | _ => false
  end.

Definition in_domain (key : string) (n : number) : bool :=
  if String.eqb key "temperature" then within 0 2 n
  else if String.eqb key "maxTokens" then positive_integer n
  else if String.eqb key "topP" then within 0 1 n
  else if String.eqb key "frequencyPenalty" then within (-2) 2 n
  else if String.eqb key "presencePenalty" then within (-2) 2 n
  else true.

Definition optional_fields : list string :=
  ["maxTokens"; "topP"; "frequencyPenalty"; "presencePenalty"].

(** A field is present when it is not [undefined]. *)
Definition present (v : JsValue) : bool :=
  match v with
  | JUndefined => false
  | _ => true
  end.

(** The field [key] of the submitted values breaks the data model:
    [temperature] whenever it is outside its domain, an optional field when
    it is present and outside its domain. *)
Definition violates (vals : gmap string JsValue) (key : string) : bool :=
  if String.eqb key "temperature" then
    negb (in_domain key (ToNumber (field vals key)))
  else if existsb (String.eqb key) optional_fields then
    present (field vals key)
    && negb (in_domain key (ToNumber (field vals key)))
  else false.

(** What parsing yields for an optional field. *)
Definition parsed_optional (vals : gmap string JsValue) (key : string)
  : option number :=
  if present (field vals key) then Some (ToNumber (field vals key))
  else None.

(** The submitted values as a parsed form. *)
Definition parsed_form (vals : gmap string JsValue) : SettingsForm :=
  {| temperature := ToNumber (field vals "temperature");
     maxTokens := parsed_optional vals "maxTokens";
     topP := parsed_optional vals "topP";
     frequencyPenalty := parsed_optional vals "frequencyPenalty";
     presencePenalty := parsed_optional vals "presencePenalty" |}.

(** Every field of the submitted values respects the data model. *)
Definition valid (vals : gmap string JsValue) : bool :=
  forallb (fun key => negb (violates vals key))
    ("temperature" :: optional_fields).

(** The submitted fields as the form holds them: [temperature], then every
    optional field that is present, each with its numeric value. *)
Definition submitted_optional (vals : gmap string JsValue) (key : string)
  : list (string * JsValue) :=
  if present (field vals key) then [(key, JNum (ToNumber (field vals key)))]
  else [].

Definition submitted_fields (vals : gmap string JsValue)
  : list (string * JsValue) :=
  ("temperature", JNum (ToNumber (field vals "temperature")))
  :: flat_map (submitted_optional vals) optional_fields.

Definition put_settings_request (body : JsValue) : Request :=
  {| req_url := "/api/profile/settings"; req_method := "PUT";
     req_headers := [("Content-Type", "application/json")];
     req_body := Some body |}.

(** A write fails when the request is rejected or the response is not a
    success. *)
Definition write_fails (net : FetchOutcome) : bool :=
  match net with
  | fetch_rejected _ => true
  | fetch_resolved r => negb (ok r)
  end.

(** The reason shown for a failed write. *)
Definition failure_reason (net : FetchOutcome) : string :=
  match net with
  | fetch_rejected (ErrorObj reason) => reason
  | _ => "Failed to update settings"
  end.

Definition mock_saved_toast : Toast :=
  {| toast_type := toast_success;
     description := "Settings updated in mock mode" |}.

Definition saved_toast : Toast :=
  {| toast_type := toast_success;
     description := "Settings updated successfully" |}.

(** The notification a live submit ends with. *)
Definition submit_toast (net : FetchOutcome) : Toast :=
  if write_fails net
  then {| toast_type := toast_error; description := failure_reason net |}
  else saved_toast.

(** What a live submit writes to the console. *)
Definition submit_log (net : FetchOutcome) : list (string * Thrown) :=
  match net with
  | fetch_rejected e => [("Error updating settings:", e)]
  | fetch_resolved r =>
      if ok r then []
      else [("Error updating settings:", ErrorObj "Failed to update settings")]
  end.

Definition with_errors (e : gmap string FieldError) (st : State) : State :=
  {| isLoading := isLoading st; useMockData := useMockData st;
     values := values st; errors := e; toasts := toasts st;
     requests := requests st; timers := timers st; console := console st |}.

(** ** The rendered form *)

(** [n.toFixed(digits)], a fourth built-in taken as a parameter. *)
Variable Number_toFixed : number → nat → string.

(** What the component returns, as far as it depends on the state: the
    demo banner, the text after "Temperature: ", whether the five inputs are
    disabled, the message shown under each field, and the submit button. *)
Record View : Type := mkView {
  demo_banner : option string;
  temperature_label : JsValue;
  inputs_disabled : bool;
  error_lines : list (string * string);
  button_disabled : bool;
  button_text : string;
}.

(** [watch('temperature')] *)
Definition watch (st : State) (name : string) : JsValue :=
  field (values st) name.

(** [temperatureValue?.toFixed(1) || 0.7]: the optional chain stops on
    [undefined] and [null] only; a value that is not a number has no
    [toFixed], and calling it throws. *)
Definition temperature_text (temperatureValue : JsValue) : Thrown + JsValue :=
  match temperatureValue with
  | JUndefined | JNull => inr (JNum (Finite 0.7))
  | JNum n =>
      let text := JStr (Number_toFixed n 1) in
      inr (if ToBoolean text then text else JNum (Finite 0.7))
  | _ => inl (ErrorObj "temperatureValue?.toFixed is not a function")
  end.

(** The fields of the schema, in the order the form lists them. *)
Definition schema_fields : list string := "temperature" :: optional_fields.

(** [errors.name && <p>{errors.name.message}</p>] *)
Definition error_line (st : State) (name : string) : option (string * string) :=
  match errors st !! name with
  | Some e => Some (name, message e)
  | None => None
  end.

(** The component's [return (...)]. *)
Definition render (st : State) : Thrown + View :=
  match temperature_text (watch st "temperature") with
  | inl e => inl e
  | inr label =>
      inr {| demo_banner :=
               if useMockData st then Some "Demo Mode: Using sample settings"
               else None;
             temperature_label := label;
             inputs_disabled := isLoading st;
             error_lines := omap (error_line st) schema_fields;
             button_disabled := isLoading st;
             button_text :=
               if isLoading st then "Saving..." else "Save Settings" |}
  end.



(** A value on which the optional chain stops, or a number. *)
Definition nullish_or_number (v : JsValue) : bool :=
  match v with
  | JUndefined | JNull | JNum _ => true
  | _ => false
  end.

(** ** Sample inputs *)

(** A transport error, a refused write and an accepted write. *)
Definition sample_network_error : FetchOutcome :=
  fetch_rejected (ErrorObj "Failed to fetch").

Definition sample_server_error : FetchOutcome :=
  fetch_resolved {| ok := false; json := inr (JObj [("error", JStr "Internal Server Error")]) |}.

Definition sample_write_ok : FetchOutcome :=
  fetch_resolved {| ok := true; json := inr (JObj [("success", JBool true)]) |}.

(** A stored record: temperature 0.85, no topP, and bookkeeping fields. *)
Definition sample_stored_settings : list (string * JsValue) :=
  [ ("userId", JStr "u1");
    ("temperature", JNum (Finite 0.85));
    ("maxTokens", JNum (Finite 1024));
    ("topP", JNull);
    ("createdAt", JStr "2024-01-01T00:00:00Z");
    ("updatedAt", JStr "2024-01-02T00:00:00Z") ].

Definition sample_load_ok : Response :=
  {| ok := true;
     json := inr (JObj [("settings", JObj sample_stored_settings)]) |}.


(** The form after a load, edited to temperature 1.2 and maxTokens 2000. *)
Definition sample_edits : gmap string JsValue :=
  <["maxTokens" := JNum (Finite 2000)]>
  (<["temperature" := JNum (Finite 1.2)]> defaultValues).

Definition sample_live : State :=
  {| isLoading := false; useMockData := false; values := sample_edits;
     errors := ∅; toasts := []; requests := []; timers := [];
     console := [] |}.

Definition sample_demo : State :=
  {| isLoading := false; useMockData := true; values := sample_edits;
     errors := ∅; toasts := []; requests := []; timers := [];
     console := [] |}.

(** The same form with topP set to 1.5. *)
Definition sample_topP_too_big : State :=
  {| isLoading := false; useMockData := false;
     values := <["topP" := JNum (Finite 1.5)]> sample_edits;
     errors := ∅; toasts := []; requests := []; timers := [];
     console := [] |}.

(** The form with the maxTokens input emptied, and with the topP input
    emptied. *)
Definition sample_emptied_maxTokens : State :=
  {| isLoading := false; useMockData := false;
     values := <["maxTokens" := JStr ""]> sample_edits;
     errors := ∅; toasts := []; requests := []; timers := [];
     console := [] |}.

Definition sample_emptied_topP : State :=
  {| isLoading := false; useMockData := false;
     values := <["topP" := JStr ""]> sample_edits;
     errors := ∅; toasts := []; requests := []; timers := [];
     console := [] |}.




(** A store that returns the temperature as a string. *)
Definition sample_load_string_temperature : Response :=
  {| ok := true;
     json := inr (JObj [("settings",
                         JObj [("temperature", JStr "0.85")])]) |}.

(** ** The loader *)

Lemma set_field_plain (m : gmap string JsValue) name value :
  plain_name name = true → set_field m name value = <[name := value]> m.
Proof. intros H. unfold set_field. by rewrite H. Qed.

Lemma forEach_setValue guard entries st :
  forEach entries (fun '(key, value) =>
    when (guard key value) (setValue key value)) st
  = (inr tt, with_values (foldl (write_entry guard) (values st) entries) st).
Proof.
  revert st. induction entries as [|[key value] rest IH]; intros st.
  - destruct st; reflexivity.
  - cbn [forEach foldl]. unfold bind, when.
    replace (write_entry guard (values st) (key, value))
      with (if guard key value then set_field (values st) key value
            else values st)
      by reflexivity.
    destruct (guard key value); cbn [setValue modify ret]; rewrite IH;
      destruct st; reflexivity.
Qed.

Lemma foldl_write_absent guard entries (m : gmap string JsValue) key :
  plain_names entries = true → key ∉ entries.*1 →
  foldl (write_entry guard) m entries !! key = m !! key.
Proof.
  revert m. induction entries as [|[k v] rest IH]; intros m Hplain Hnot;
    [done|].
  cbn in Hplain, Hnot. apply andb_prop in Hplain as [Hk Hplain].
  apply not_elem_of_cons in Hnot as [Hne Hrest].
  cbn [foldl]. rewrite IH by done. unfold write_entry; cbn.
  destruct (guard k v); [|done].
  rewrite set_field_plain by done. by rewrite lookup_insert_ne.
Qed.

Lemma foldl_write_present guard entries (m : gmap string JsValue) key value :
  plain_names entries = true →
  NoDup entries.*1 → (key, value) ∈ entries → guard key value = true →
  foldl (write_entry guard) m entries !! key = Some value.
Proof.
  revert m. induction entries as [|[k v] rest IH]; intros m Hplain Hnd Hin Hg.
  - by apply elem_of_nil in Hin.
  - cbn in Hplain, Hnd. apply andb_prop in Hplain as [Hk Hplain].
    apply NoDup_cons in Hnd as [Hfresh Hnd].
    apply elem_of_cons in Hin as [Heq | Hin].
    + injection Heq as <- <-. cbn [foldl].
      rewrite foldl_write_absent by done.
      unfold write_entry; cbn. rewrite Hg, set_field_plain by done.
      apply lookup_insert_eq.
    + cbn [foldl]. by apply IH.
Qed.


(** A load that does not fail has a success response with a JSON body
    whose [settings] member can be read. *)
Lemma load_succeeds_inv net :
  load_fails net = false →
  ∃ r data settings,
    net = fetch_resolved r ∧ ok r = true ∧ json r = inr data
    ∧ data_settings data = inr settings.
Proof.
  destruct net as [e | [okr [e | data]]]; cbn; try discriminate.
  - by rewrite orb_true_r.
  - destruct okr; cbn; [|discriminate].
    destruct (data_settings data) as [e | settings] eqn:E; [discriminate|].
    intros _. by exists {| ok := true; json := inr data |}, data, settings.
Qed.

(** The failure path of [fetchSettings], in one equation. *)
Lemma fetchSettings_fails net st :
  load_fails net = true →
  exec (fetchSettings net) st
  = {| isLoading := false; useMockData := true;
       values :=
         <["presencePenalty" := JNum (Finite 0)]>
         (<["frequencyPenalty" := JNum (Finite 0)]>
         (<["topP" := JNum (Finite 0.95)]>
         (<["maxTokens" := JNum (Finite 4000)]>
         (<["temperature" := JNum (Finite 0.7)]> (values st)))));
       errors := errors st;
       toasts := toasts st ++ [sample_settings_toast];
       requests := requests st ++ [get_settings_request];
       timers := timers st;
       console := console st ++ [("Error fetching settings:", load_error net)] |}.
Proof.
  intros Hfail. destruct st.
  destruct net as [e | [[] [e | data]]]; cbn in Hfail; try reflexivity.
  destruct data; cbn in Hfail; try discriminate; reflexivity.
Qed.

(** The success path of [fetchSettings], in one equation. *)
Lemma fetchSettings_succeeds r data settings st :
  ok r = true → json r = inr data → data_settings data = inr settings →
  exec (fetchSettings (fetch_resolved r)) st
  = {| isLoading := false; useMockData := false;
       values :=
         if ToBoolean settings
         then foldl (write_entry copied) (values st) (Object_entries settings)
         else values st;
       errors := errors st;
       toasts := toasts st;
       requests := requests st ++ [get_settings_request];
       timers := timers st;
       console := console st |}.
Proof.
  intros Hok Hjson Hset. destruct r as [okr jsonr]. cbn in Hok, Hjson. subst.
  destruct st. unfold exec, fetchSettings, finally, try_catch, bind, lift.
  cbn -[forEach ToBoolean Object_entries data_settings].
  rewrite Hset. unfold when.
  destruct (ToBoolean settings); cbn -[forEach Object_entries]; [|reflexivity].
  rewrite (forEach_setValue copied). reflexivity.
Qed.

(** ** Validation *)

Lemma parse_range_accepts lo hi v :
  within lo hi (ToNumber v) = true →
  ZodNumber_parse (z.coerce_number |> z.min lo |> z.max hi) v
  = inr (ToNumber v).
Proof.
  unfold ZodNumber_parse; cbn. destruct (ToNumber v) as [| neg | q]; cbn;
    try discriminate.
  intros [H1 H2]%andb_prop. by rewrite H1, H2.
Qed.

Lemma parse_range_rejects lo hi v :
  within lo hi (ToNumber v) = false →
  ∃ i issues,
    ZodNumber_parse (z.coerce_number |> z.min lo |> z.max hi) v
    = inl (i :: issues).
Proof.
  unfold ZodNumber_parse; cbn. destruct (ToNumber v) as [| [] | q]; cbn;
    eauto.
  destruct (Qle_bool lo q), (Qle_bool q hi); cbn; try discriminate; eauto.
Qed.

Lemma parse_maxTokens_accepts v :
  positive_integer (ToNumber v) = true →
  ZodNumber_parse settingsFormSchema_maxTokens v = inr (ToNumber v).
Proof.
  unfold ZodNumber_parse; cbn. destruct (ToNumber v) as [| neg | q]; cbn;
    try discriminate.
  intros [H1 H2]%andb_prop. rewrite H2.
  by destruct (Qle_bool q 0).
Qed.

Lemma parse_maxTokens_rejects v :
  positive_integer (ToNumber v) = false →
  ∃ i issues,
    ZodNumber_parse settingsFormSchema_maxTokens v = inl (i :: issues).
Proof.
  unfold ZodNumber_parse; cbn. destruct (ToNumber v) as [| [] | q]; cbn;
    eauto.
  destruct (Qle_bool q 0), (Qnum q mod Z.pos (Qden q) =? 0)%Z; cbn;
    try discriminate; eauto.
Qed.

Lemma within_finite lo hi n :
  within lo hi n = true → JSON_number n = JNum n.
Proof. by destruct n. Qed.

Lemma positive_integer_finite n :
  positive_integer n = true → JSON_number n = JNum n.
Proof. by destruct n. Qed.

Lemma issue_message_readable i : issue_message i ≠ "".
Proof.
  destruct i as [expected received | minimum [] | maximum []]; cbn;
    try discriminate.
  by destruct (received =? "undefined")%string.
Qed.

Lemma optional_accepts s (P : number → bool) v :
  (∀ v, P (ToNumber v) = true → ZodNumber_parse s v = inr (ToNumber v)) →
  present v && negb (P (ToNumber v)) = false →
  ZodOptional_parse s v = inr (if present v then Some (ToNumber v) else None).
Proof.
  intros Hs Hv. destruct v; [done|..]; apply negb_false_iff in Hv;
    unfold ZodOptional_parse; by rewrite Hs.
Qed.

Lemma optional_rejects s (P : number → bool) v :
  (∀ v, P (ToNumber v) = false →
        ∃ i issues, ZodNumber_parse s v = inl (i :: issues)) →
  present v && negb (P (ToNumber v)) = true →
  ∃ i issues, ZodOptional_parse s v = inl (i :: issues).
Proof.
  intros Hs Hv. destruct v; [done|..]; apply negb_true_iff in Hv;
    unfold ZodOptional_parse;
    destruct (Hs _ Hv) as (i & issues & ->); eauto.
Qed.

Lemma safeParse_valid vals :
  valid vals = true →
  settingsFormSchema_safeParse vals = inr (parsed_form vals).
Proof.
  unfold valid; cbn -[field ToNumber within positive_integer present].
  rewrite !andb_true_iff, !negb_true_iff, negb_false_iff.
  intros (Ht & Hm & Hp & Hf & Hpp & _).
  unfold settingsFormSchema_safeParse.
  assert (ZodNumber_parse settingsFormSchema_temperature
            (field vals "temperature")
          = inr (ToNumber (field vals "temperature"))) as ->
    by exact (parse_range_accepts 0 2 _ Ht).
  rewrite (optional_accepts settingsFormSchema_maxTokens positive_integer
             _ parse_maxTokens_accepts Hm).
  rewrite (optional_accepts settingsFormSchema_topP (within 0 1)
             _ (parse_range_accepts 0 1) Hp).
  rewrite (optional_accepts settingsFormSchema_frequencyPenalty
             (within (-2) 2) _ (parse_range_accepts (-2) 2) Hf).
  rewrite (optional_accepts settingsFormSchema_presencePenalty
             (within (-2) 2) _ (parse_range_accepts (-2) 2) Hpp).
  reflexivity.
Qed.

Lemma safeParse_violation vals key :
  violates vals key = true →
  ∃ issues i,
    settingsFormSchema_safeParse vals = inl issues ∧ (key, i) ∈ issues.
Proof.
  unfold violates. intros Hv.
  assert (∃ i l,
    (key = "temperature" ∧
     ZodNumber_parse settingsFormSchema_temperature (field vals key)
     = inl (i :: l))
    ∨ (key = "maxTokens" ∧
       ZodOptional_parse settingsFormSchema_maxTokens (field vals key)
       = inl (i :: l))
    ∨ (key = "topP" ∧
       ZodOptional_parse settingsFormSchema_topP (field vals key)
       = inl (i :: l))
    ∨ (key = "frequencyPenalty" ∧
       ZodOptional_parse settingsFormSchema_frequencyPenalty (field vals key)
       = inl (i :: l))
    ∨ (key = "presencePenalty" ∧
       ZodOptional_parse settingsFormSchema_presencePenalty (field vals key)
       = inl (i :: l))) as (i & l & Hcase).
  { destruct (String.eqb key "temperature") eqn:Ek;
      [apply String.eqb_eq in Ek; subst key | clear Ek].
    { apply negb_true_iff in Hv.
      destruct (parse_range_rejects 0 2 _ Hv) as (i & l & E). eauto 10. }
    cbn [existsb optional_fields] in Hv.
    destruct (String.eqb key "maxTokens") eqn:Ek;
      [apply String.eqb_eq in Ek; subst key | clear Ek].
    { destruct (optional_rejects settingsFormSchema_maxTokens
                  positive_integer _ parse_maxTokens_rejects Hv)
        as (i & l & E). eauto 10. }
    destruct (String.eqb key "topP") eqn:Ek;
      [apply String.eqb_eq in Ek; subst key | clear Ek].
    { destruct (optional_rejects settingsFormSchema_topP
                  (within 0 1) _ (parse_range_rejects 0 1) Hv)
        as (i & l & E). eauto 10. }
    destruct (String.eqb key "frequencyPenalty") eqn:Ek;
      [apply String.eqb_eq in Ek; subst key | clear Ek].
    { destruct (optional_rejects settingsFormSchema_frequencyPenalty
                  (within (-2) 2) _ (parse_range_rejects (-2) 2) Hv)
        as (i & l & E). eauto 10. }
    destruct (String.eqb key "presencePenalty") eqn:Ek; [|done].
    apply String.eqb_eq in Ek; subst key.
    destruct (optional_rejects settingsFormSchema_presencePenalty
                (within (-2) 2) _ (parse_range_rejects (-2) 2) Hv)
      as (i & l & E). eauto 10. }
  unfold settingsFormSchema_safeParse. cbv zeta.
  destruct Hcase as [[-> E] | [[-> E] | [[-> E] | [[-> E] | [-> E]]]]];
    rewrite E;
    destruct (ZodNumber_parse settingsFormSchema_temperature _),
      (ZodOptional_parse settingsFormSchema_maxTokens _),
      (ZodOptional_parse settingsFormSchema_topP _),
      (ZodOptional_parse settingsFormSchema_frequencyPenalty _),
      (ZodOptional_parse settingsFormSchema_presencePenalty _);
    try discriminate;
    (eexists _, i; split; [reflexivity|]);
    cbn [issues_at]; rewrite ?elem_of_app, ?fmap_cons, ?elem_of_cons;
    try injection E as -> ; auto 10.
Qed.

Lemma zodResolver_valid vals :
  valid vals = true → zodResolver vals = inr (parsed_form vals).
Proof. intros H. unfold zodResolver. by rewrite safeParse_valid. Qed.

Lemma zodResolver_inr vals data :
  zodResolver vals = inr data → valid vals = true.
Proof.
  intros H. destruct (valid vals) eqn:Hv; [done|]. exfalso.
  assert (∃ key, violates vals key = true) as [key Hk].
  { unfold valid in Hv. cbn [forallb optional_fields] in Hv.
    repeat (apply andb_false_iff in Hv as [Hv | Hv];
            [apply negb_false_iff in Hv; eauto |]).
    discriminate. }
  destruct (safeParse_violation _ _ Hk) as (issues & i & E & _).
  unfold zodResolver in H. by rewrite E in H.
Qed.

Lemma stringify_parsed vals :
  valid vals = true →
  JSON_stringify (parsed_form vals) = JObj (submitted_fields vals).
Proof.
  unfold valid; cbn -[field ToNumber within positive_integer present].
  rewrite !andb_true_iff, !negb_true_iff, negb_false_iff.
  intros (Ht & Hm & Hp & Hf & Hpp & _).
  unfold JSON_stringify, submitted_fields, parsed_form, parsed_optional,
    submitted_optional.
  cbn -[field ToNumber]. rewrite (within_finite _ _ _ Ht).
  destruct (present (field vals "maxTokens")),
    (present (field vals "topP")),
    (present (field vals "frequencyPenalty")),
    (present (field vals "presencePenalty"));
    cbn -[field ToNumber within positive_integer] in *;
    repeat match goal with
           | H : negb _ = false |- _ => apply negb_false_iff in H
           end;
    rewrite ?(positive_integer_finite _ Hm), ?(within_finite _ _ _ Hp),
      ?(within_finite _ _ _ Hf), ?(within_finite _ _ _ Hpp);
    reflexivity.
Qed.

(** ** The resolver's errors *)

Lemma parseErrorSchema_keeps issues (acc : gmap string FieldError) path e :
  acc !! path = Some e → parseErrorSchema issues acc !! path = Some e.
Proof.
  revert acc. induction issues as [|[p i] rest IH]; intros acc H; [done|].
  cbn. apply IH. destruct (acc !! p) eqn:E; [done|].
  rewrite lookup_insert_ne; [done | congruence].
Qed.

Lemma parseErrorSchema_reports issues (acc : gmap string FieldError) path i :
  (path, i) ∈ issues →
  (∀ k e, acc !! k = Some e → message e ≠ "") →
  ∃ e, parseErrorSchema issues acc !! path = Some e ∧ message e ≠ "".
Proof.
  revert acc. induction issues as [|[p j] rest IH]; intros acc Hin Hacc.
  - by apply elem_of_nil in Hin.
  - cbn. apply elem_of_cons in Hin as [Heq | Hin].
    + injection Heq as <- <-. destruct (acc !! path) eqn:E.
      * exists f. split; [by apply parseErrorSchema_keeps | eauto].
      * eexists. split.
        { apply parseErrorSchema_keeps, lookup_insert_eq. }
        apply issue_message_readable.
    + apply IH; [done|]. destruct (acc !! p) eqn:E; [done|].
      intros k e. rewrite lookup_insert. case_decide.
      * intros [= <-]. apply issue_message_readable.
      * apply Hacc.
Qed.

(** ** The submit paths, each in one equation *)

Lemma onSubmit_mock net data st :
  useMockData st = true →
  exec (onSubmit net data) st
  = {| isLoading := true; useMockData := true; values := values st;
       errors := errors st; toasts := toasts st; requests := requests st;
       timers := timers st ++ [(500, MockUpdateDone)];
       console := console st |}.
Proof. intros H. destruct st. cbn in H. subst. reflexivity. Qed.

Lemma onSubmit_live net data st :
  useMockData st = false →
  exec (onSubmit net data) st
  = {| isLoading := false; useMockData := false; values := values st;
       errors := errors st; toasts := toasts st ++ [submit_toast net];
       requests :=
         requests st ++ [put_settings_request (JSON_stringify data)];
       timers := timers st;
       console := console st ++ submit_log net |}.
Proof.
  intros H. destruct st. cbn in H. subst.
  destruct net as [[m | v] | [[] j]]; cbn; rewrite ?app_nil_r; reflexivity.
Qed.

Lemma handleSubmit_valid net st :
  valid (values st) = true →
  exec (handleSubmit net) st
  = exec (onSubmit net (parsed_form (values st))) (with_errors ∅ st).
Proof.
  intros H. unfold exec, handleSubmit, bind, gets. cbn [fst snd].
  rewrite (zodResolver_valid _ H). destruct st; reflexivity.
Qed.

Lemma handleSubmit_invalid net st issues :
  settingsFormSchema_safeParse (values st) = inl issues →
  exec (handleSubmit net) st = with_errors (parseErrorSchema issues ∅) st.
Proof.
  intros H. unfold exec, handleSubmit, bind, gets, zodResolver.
  cbn [fst snd]. rewrite H. destruct st; reflexivity.
Qed.

Lemma runCallbacks_summary (pending : list (nat * TimerCallback)) st :
  forEach pending (fun '(_, cb) => runCallback cb) st
  = (inr tt,
     {| isLoading := match pending with [] => isLoading st | _ => false end;
        useMockData := useMockData st; values := values st;
        errors := errors st;
        toasts := toasts st ++ ((fun _ => mock_saved_toast) <$> pending);
        requests := requests st; timers := timers st;
        console := console st |}).
Proof.
  revert st. induction pending as [|[delay []] rest IH]; intros st.
  - destruct st; cbn; by rewrite app_nil_r.
  - cbn [forEach]. unfold bind at 1. cbn [runCallback].
    unfold bind at 1. cbn. rewrite IH. cbn. rewrite <- app_assoc.
    destruct rest; reflexivity.
Qed.

Lemma runTimers_summary st :
  exec runTimers st
  = {| isLoading := match timers st with [] => isLoading st | _ => false end;
       useMockData := useMockData st; values := values st;
       errors := errors st;
       toasts := toasts st ++ ((fun _ => mock_saved_toast) <$> timers st);
       requests := requests st; timers := [];
       console := console st |}.
Proof.
  unfold exec, runTimers, bind, gets, clearTimers, modify. cbn [fst snd].
  rewrite runCallbacks_summary. reflexivity.
Qed.


(** ** Loading: specified behaviour *)

(** C1. Whenever [fetchSettings] fails (the request is rejected, the
    response is not a success, or its body cannot be used), the five fields
    of the edit buffer hold the built-in defaults (temperature 0.7, maxTokens
    4000, topP 0.95, both penalties 0), the demo-mode flag is true, and
    exactly one notification is added, the sample-settings warning. Started
    from the state at mount, the edit buffer is exactly the built-in
    default. *)
Theorem load_failure_yields_defaults net st :
  load_fails net = true →
  let st' := exec (fetchSettings net) st in
  values st' !! "temperature" = Some (JNum (Finite 0.7))
  ∧ values st' !! "maxTokens" = Some (JNum (Finite 4000))
  ∧ values st' !! "topP" = Some (JNum (Finite 0.95))
  ∧ values st' !! "frequencyPenalty" = Some (JNum (Finite 0))
  ∧ values st' !! "presencePenalty" = Some (JNum (Finite 0))
  ∧ useMockData st' = true
  ∧ toasts st' = toasts st ++ [sample_settings_toast]
  ∧ values (exec (fetchSettings net) initial_state)
    = list_to_map (Object_entries MOCK_SETTINGS).
Proof.
  intros Hfail st'. subst st'. rewrite !fetchSettings_fails by done.
  cbn [values useMockData toasts].
  repeat split; by simplify_map_eq.
Qed.



(** ** Validating and submitting: specified behaviour *)

(** C9. When [temperature] lies in [0, 2] and the four optional fields are
    absent, validation accepts the values; the parsed form has that
    temperature and no optional field. *)
Theorem absent_optionals_are_valid vals :
  within 0 2 (ToNumber (field vals "temperature")) = true →
  Forall (fun key => field vals key = JUndefined) optional_fields →
  zodResolver vals
  = inr {| temperature := ToNumber (field vals "temperature");
           maxTokens := None; topP := None;
           frequencyPenalty := None; presencePenalty := None |}.
Proof.
  intros Ht Habsent.
  apply Forall_cons in Habsent as [Hm Habsent].
  apply Forall_cons in Habsent as [Hp Habsent].
  apply Forall_cons in Habsent as [Hf Habsent].
  apply Forall_cons in Habsent as [Hpp _].
  rewrite zodResolver_valid.
  - unfold parsed_form, parsed_optional. by rewrite Hm, Hp, Hf, Hpp.
  - unfold valid. cbn -[field ToNumber within]. by rewrite Ht, Hm, Hp, Hf, Hpp.
Qed.

(** C4. When a field of the submitted values breaks its domain
    ([temperature] outside [0, 2], or a present optional field outside its
    declared domain), the submit is refused: the form's errors name that
    field with a readable message, and no request, no notification and no
    timer is issued. *)
Theorem invalid_submit_is_rejected_locally st net key :
  violates (values st) key = true →
  let st' := exec (handleSubmit net) st in
  (∃ e, errors st' !! key = Some e ∧ message e ≠ "")
  ∧ requests st' = requests st
  ∧ toasts st' = toasts st
  ∧ timers st' = timers st.
Proof.
  intros Hv st'. subst st'.
  destruct (safeParse_violation _ _ Hv) as (issues & i & Hparse & Hin).
  rewrite (handleSubmit_invalid _ _ _ Hparse). cbn. split; [|done].
  apply (parseErrorSchema_reports _ _ _ i); [done|].
  intros k e. by rewrite lookup_empty.
Qed.

(** C2. In demo mode a submit of valid values contacts no store: it queues
    the 500 ms timer and nothing else, and once the timers have expired the
    user has received the success notification; the request log is
    untouched throughout. *)
Theorem demo_submit_succeeds_without_network st net :
  valid (values st) = true → useMockData st = true →
  let st1 := exec (handleSubmit net) st in
  let st2 := exec runTimers st1 in
  requests st1 = requests st
  ∧ timers st1 = timers st ++ [(500, MockUpdateDone)]
  ∧ requests st2 = requests st
  ∧ toasts st2 = toasts (exec runTimers st) ++ [mock_saved_toast].
Proof.
  intros Hvalid Hmock st1 st2. subst st1 st2.
  rewrite (handleSubmit_valid _ _ Hvalid).
  rewrite onSubmit_mock by (by destruct st).
  rewrite !runTimers_summary. cbn.
  by rewrite fmap_app, app_assoc.
Qed.

(** C3. In live mode a submit of valid values issues exactly one request,
    a PUT to the settings endpoint whose body holds exactly the submitted
    fields ([temperature] and every present optional field, with their
    values), and it ends with the success notification when the response is
    a success. *)
Theorem live_submit_puts_submitted_fields st net :
  valid (values st) = true → useMockData st = false →
  let st' := exec (handleSubmit net) st in
  requests st'
  = requests st ++ [put_settings_request (JObj (submitted_fields (values st)))]
  ∧ toasts st'
    = toasts st
      ++ [if write_fails net
          then {| toast_type := toast_error;
                  description := failure_reason net |}
          else saved_toast].
Proof.
  intros Hvalid Hlive st'. subst st'.
  rewrite (handleSubmit_valid _ _ Hvalid).
  rewrite onSubmit_live by (by destruct st).
  cbn. by rewrite (stringify_parsed _ Hvalid).
Qed.

(** C5. When the write of a live-mode submit fails (rejected request or
    non-success response), the reason is shown in one error notification
    and the edit buffer is what it was before the submit. *)
Theorem failed_submit_keeps_edit_buffer st net :
  valid (values st) = true → useMockData st = false →
  write_fails net = true →
  let st' := exec (handleSubmit net) st in
  values st' = values st
  ∧ toasts st'
    = toasts st
      ++ [{| toast_type := toast_error; description := failure_reason net |}].
Proof.
  intros Hvalid Hlive Hfail st'. subst st'.
  rewrite (handleSubmit_valid _ _ Hvalid).
  rewrite onSubmit_live by (by destruct st).
  cbn. unfold submit_toast. by rewrite Hfail.
Qed.

(** C6. No branch of a submit changes the session mode: not the refusal of
    invalid values, not the simulated save and its timer, not a live save
    that succeeds or fails. *)
Theorem submit_preserves_mode st net :
  useMockData (exec (handleSubmit net) st) = useMockData st
  ∧ useMockData (exec runTimers (exec (handleSubmit net) st)) = useMockData st.
Proof.
  assert (useMockData (exec (handleSubmit net) st) = useMockData st) as Hsame;
    [|split; [exact Hsame | rewrite runTimers_summary; exact Hsame]].
  destruct (valid (values st)) eqn:Hvalid.
  - rewrite (handleSubmit_valid _ _ Hvalid).
    destruct (useMockData st) eqn:Hmode.
    + rewrite onSubmit_mock by (by destruct st). done.
    + rewrite onSubmit_live by (by destruct st). done.
  - destruct (settingsFormSchema_safeParse (values st)) as [issues|data] eqn:E.
    + by rewrite (handleSubmit_invalid _ _ _ E).
    + assert (valid (values st) = true); [|congruence].
      apply (zodResolver_inr _ data). unfold zodResolver. by rewrite E.
Qed.

(** ** Further properties of the loader *)

Lemma fetchSettings_returns net st :
  fetchSettings net st = (inr tt, exec (fetchSettings net) st).
Proof.
  destruct (load_fails net) eqn:Hfail.
  - destruct st.
    destruct net as [e | [[] [e | data]]]; cbn in Hfail; try reflexivity.
    destruct data; cbn in Hfail; try discriminate; reflexivity.
  - destruct (load_succeeds_inv _ Hfail)
      as ([okr jsonr] & data & settings & -> & Hok & Hjson & Hset).
    cbn in Hok, Hjson. subst. destruct st.
    unfold exec, fetchSettings, finally, try_catch, bind, lift.
    cbn -[forEach ToBoolean Object_entries data_settings].
    rewrite Hset. unfold when.
    destruct (ToBoolean settings); cbn -[forEach Object_entries];
      [|reflexivity].
    rewrite (forEach_setValue copied). reflexivity.
Qed.

Lemma foldl_write_frame guard entries (m : gmap string JsValue) key :
  plain_names entries = true →
  (∀ value, (key, value) ∈ entries → guard key value = false) →
  foldl (write_entry guard) m entries !! key = m !! key.
Proof.
  revert m. induction entries as [|[k v] rest IH]; intros m Hplain Hkey;
    [done|].
  cbn in Hplain. apply andb_prop in Hplain as [Hk Hplain].
  cbn [foldl]. rewrite IH.
  - unfold write_entry; cbn. destruct (guard k v) eqn:Hg; [|done].
    rewrite set_field_plain by done.
    rewrite lookup_insert_ne; [done|]. intros ->.
    rewrite Hkey in Hg; [done | apply list_elem_of_here].
  - done.
  - intros value Hin. apply Hkey. by apply list_elem_of_further.
Qed.

(** X1. A load never throws, whatever the network does: it returns with the
    loading flag cleared, exactly one GET added to the requests, the mode
    set to demo exactly when the load failed (whatever the mode was before),
    and the form errors and timers untouched. *)
Theorem load_always_settles net st :
  ∃ st',
    fetchSettings net st = (inr tt, st')
    ∧ isLoading st' = false
    ∧ useMockData st' = load_fails net
    ∧ requests st' = requests st ++ [get_settings_request]
    ∧ errors st' = errors st
    ∧ timers st' = timers st.
Proof.
  exists (exec (fetchSettings net) st). split; [apply fetchSettings_returns|].
  destruct (load_fails net) eqn:Hfail.
  - by rewrite (fetchSettings_fails _ _ Hfail).
  - destruct (load_succeeds_inv _ Hfail)
      as (r & data & settings & -> & Hok & Hjson & Hset).
    by rewrite (fetchSettings_succeeds _ _ _ _ Hok Hjson Hset).
Qed.

(** X2. On a successful load of a settings value whose field names are
    plain, a field keeps the value the form had when the store returns
    nothing usable for it: every entry under that name is [null], or the
    name is [userId], [createdAt] or [updatedAt]. So a [null] never clears a
    field, bookkeeping never enters the edit buffer, and a field the store
    does not mention is left alone. *)
Theorem load_keeps_uncopied_fields r data settings st key :
  ok r = true → json r = inr data → data_settings data = inr settings →
  plain_names (Object_entries settings) = true →
  (∀ value, (key, value) ∈ Object_entries settings →
            value = JNull ∨ key ∈ ["userId"; "createdAt"; "updatedAt"]) →
  values (exec (fetchSettings (fetch_resolved r)) st) !! key
  = values st !! key.
Proof.
  intros Hok Hjson Hset Hplain Hkey.
  rewrite (fetchSettings_succeeds _ _ _ _ Hok Hjson Hset). cbn [values].
  destruct (ToBoolean settings); [|done].
  apply foldl_write_frame; [done|]. intros value Hin. unfold copied.
  destruct (Hkey _ Hin) as [-> | Hbook]; [done|].
  apply andb_false_iff. right. unfold not_bookkeeping.
  repeat (apply elem_of_cons in Hbook as [-> | Hbook]; [done|]).
  by apply elem_of_nil in Hbook.
Qed.

(** X3. A failed load overwrites the five fields of the defaults and no
    other: any other field of the edit buffer keeps its value. *)
Theorem load_failure_keeps_other_fields net st key :
  load_fails net = true → key ∉ schema_fields →
  values (exec (fetchSettings net) st) !! key = values st !! key.
Proof.
  intros Hfail Hkey. rewrite (fetchSettings_fails _ _ Hfail). cbn [values].
  unfold schema_fields, optional_fields in Hkey.
  rewrite !not_elem_of_cons in Hkey.
  destruct Hkey as (? & ? & ? & ? & ? & _).
  by rewrite !lookup_insert_ne.
Qed.

(** ** Further properties of the validation *)

Lemma within_Qle lo hi q :
  within lo hi (Finite q) = true ↔ (lo <= q)%Q ∧ (q <= hi)%Q.
Proof. cbn. by rewrite andb_true_iff, !Qle_bool_iff. Qed.

Lemma positive_integer_Q q :
  positive_integer (Finite q) = true
  ↔ (0 < q)%Q ∧ ∃ k : Z, (q == inject_Z k)%Q.
Proof.
  cbn. rewrite andb_true_iff, negb_true_iff, Z.eqb_eq.
  rewrite Z.mod_divide by done.
  assert (Qle_bool q 0 = false ↔ (0 < q)%Q) as ->.
  { rewrite <- not_true_iff_false, Qle_bool_iff.
    split; [apply Qnot_le_lt | apply Qlt_not_le]. }
  apply and_iff_compat_l. unfold Z.divide, Qeq, inject_Z. cbn.
  by setoid_rewrite Z.mul_1_r.
Qed.

Lemma parse_range_iff lo hi q :
  ZodNumber_parse (z.coerce_number |> z.min lo |> z.max hi) (JNum (Finite q))
  = inr (Finite q)
  ↔ (lo <= q)%Q ∧ (q <= hi)%Q.
Proof.
  rewrite <- within_Qle.
  destruct (within lo hi (Finite q)) eqn:Hw.
  - by rewrite (parse_range_accepts lo hi (JNum (Finite q)) Hw).
  - destruct (parse_range_rejects lo hi (JNum (Finite q)) Hw)
      as (i & l & ->). done.
Qed.

Lemma optional_number_iff s n m :
  ZodOptional_parse s (JNum n) = inr (Some m)
  ↔ ZodNumber_parse s (JNum n) = inr m.
Proof.
  unfold ZodOptional_parse.
  destruct (ZodNumber_parse s (JNum n)); split; congruence.
Qed.

(** X4. On numbers the schema draws exactly the bounds of the data model:
    [temperature] is accepted if and only if it lies in [0, 2], [maxTokens]
    if and only if it is a positive integer, [topP] if and only if it lies
    in [0, 1], each penalty if and only if it lies in [-2, 2]; all bounds
    but the 0 of [maxTokens] are inclusive. *)
Theorem schema_bounds_on_numbers q :
  (ZodNumber_parse settingsFormSchema_temperature (JNum (Finite q))
   = inr (Finite q)
   ↔ (0 <= q)%Q ∧ (q <= 2)%Q)
  ∧ (ZodOptional_parse settingsFormSchema_maxTokens (JNum (Finite q))
     = inr (Some (Finite q))
     ↔ (0 < q)%Q ∧ ∃ k : Z, (q == inject_Z k)%Q)
  ∧ (ZodOptional_parse settingsFormSchema_topP (JNum (Finite q))
     = inr (Some (Finite q))
     ↔ (0 <= q)%Q ∧ (q <= 1)%Q)
  ∧ (ZodOptional_parse settingsFormSchema_frequencyPenalty (JNum (Finite q))
     = inr (Some (Finite q))
     ↔ (-2 <= q)%Q ∧ (q <= 2)%Q)
  ∧ (ZodOptional_parse settingsFormSchema_presencePenalty (JNum (Finite q))
     = inr (Some (Finite q))
     ↔ (-2 <= q)%Q ∧ (q <= 2)%Q).
Proof.
  rewrite !optional_number_iff.
  split; [exact (parse_range_iff 0 2 q)|].
  split; [|split; [exact (parse_range_iff 0 1 q)|
           split; exact (parse_range_iff (-2) 2 q)]].
  rewrite <- positive_integer_Q.
  destruct (positive_integer (Finite q)) eqn:Hp.
  - by rewrite (parse_maxTokens_accepts (JNum (Finite q)) Hp).
  - destruct (parse_maxTokens_rejects (JNum (Finite q)) Hp)
      as (i & l & ->). done.
Qed.

(** X5. The resolver accepts the submitted values if and only if every
    field respects the data model, and then it hands over the values with
    each field converted to a number; there is no third outcome. *)
Theorem resolver_accepts_iff_valid vals data :
  zodResolver vals = inr data
  ↔ valid vals = true ∧ data = parsed_form vals.
Proof.
  split.
  - intros H. pose proof (zodResolver_inr _ _ H) as Hvalid.
    rewrite (zodResolver_valid _ Hvalid) in H. by injection H as <-.
  - intros [Hvalid ->]. by apply zodResolver_valid.
Qed.

Lemma field_insert_ne (vals : gmap string JsValue) key v name :
  key ≠ name → field (<[key := v]> vals) name = field vals name.
Proof. intros H. unfold field. by rewrite lookup_insert_ne. Qed.

(** X6. A field outside the schema does not take part in validation:
    adding or changing it in the submitted values changes neither the
    verdict nor the parsed form. What the loader copied from unexpected
    store fields is therefore stripped before a save. *)
Theorem resolver_ignores_other_fields vals key v :
  key ∉ schema_fields →
  zodResolver (<[key := v]> vals) = zodResolver vals.
Proof.
  intros Hkey. unfold schema_fields, optional_fields in Hkey.
  rewrite !not_elem_of_cons in Hkey.
  destruct Hkey as (? & ? & ? & ? & ? & _).
  unfold zodResolver, settingsFormSchema_safeParse.
  by rewrite !field_insert_ne.
Qed.

Lemma violates_schema_field vals key :
  violates vals key = true → key ∈ schema_fields.
Proof.
  unfold violates, schema_fields. intros H.
  destruct (String.eqb key "temperature") eqn:Ek.
  - apply String.eqb_eq in Ek as ->. apply list_elem_of_here.
  - apply list_elem_of_further.
    destruct (existsb (String.eqb key) optional_fields) eqn:Ex; [|done].
    apply existsb_exists in Ex as (name & Hin & Heq).
    apply String.eqb_eq in Heq as ->. by apply list_elem_of_In.
Qed.

(** The outcome of parsing one field, read off whether it violates. *)
Lemma temperature_result vals :
  if violates vals "temperature"
  then ∃ i l, ZodNumber_parse settingsFormSchema_temperature
                (field vals "temperature") = inl (i :: l)
  else ZodNumber_parse settingsFormSchema_temperature
         (field vals "temperature")
       = inr (ToNumber (field vals "temperature")).
Proof.
  destruct (violates vals "temperature") eqn:Hv; cbn in Hv.
  - apply negb_true_iff in Hv. exact (parse_range_rejects 0 2 _ Hv).
  - apply negb_false_iff in Hv. exact (parse_range_accepts 0 2 _ Hv).
Qed.

Lemma optional_result vals key s (P : number → bool) :
  (∀ v, P (ToNumber v) = true → ZodNumber_parse s v = inr (ToNumber v)) →
  (∀ v, P (ToNumber v) = false →
        ∃ i issues, ZodNumber_parse s v = inl (i :: issues)) →
  violates vals key
  = present (field vals key) && negb (P (ToNumber (field vals key))) →
  if violates vals key
  then ∃ i l, ZodOptional_parse s (field vals key) = inl (i :: l)
  else ZodOptional_parse s (field vals key) = inr (parsed_optional vals key).
Proof.
  intros Hacc Hrej ->.
  destruct (present (field vals key)
            && negb (P (ToNumber (field vals key)))) eqn:Hv.
  - by apply (optional_rejects s P).
  - by apply (optional_accepts s P).
Qed.

Lemma issues_at_inl {A} path i l key :
  key ∈ (issues_at (A:=A) path (inl (i :: l))).*1 ↔ key = path.
Proof.
  unfold issues_at. rewrite <- list_fmap_compose, list_elem_of_fmap. split.
  - by intros (? & -> & _).
  - intros ->. exists i. split; [done | apply list_elem_of_here].
Qed.

Lemma issues_at_inr {A} path (x : A) key :
  key ∈ (issues_at path (inr x)).*1 ↔ False.
Proof. cbn. apply elem_of_nil. Qed.

Lemma safeParse_paths vals issues key :
  settingsFormSchema_safeParse vals = inl issues →
  key ∈ issues.*1 ↔ violates vals key = true.
Proof.
  intros Hparse.
  pose proof (temperature_result vals) as H1.
  pose proof (optional_result vals "maxTokens" settingsFormSchema_maxTokens
                positive_integer parse_maxTokens_accepts
                parse_maxTokens_rejects eq_refl) as H2.
  pose proof (optional_result vals "topP" settingsFormSchema_topP
                (within 0 1) (parse_range_accepts 0 1)
                (parse_range_rejects 0 1) eq_refl) as H3.
  pose proof (optional_result vals "frequencyPenalty"
                settingsFormSchema_frequencyPenalty
                (within (-2) 2) (parse_range_accepts (-2) 2)
                (parse_range_rejects (-2) 2) eq_refl) as H4.
  pose proof (optional_result vals "presencePenalty"
                settingsFormSchema_presencePenalty
                (within (-2) 2) (parse_range_accepts (-2) 2)
                (parse_range_rejects (-2) 2) eq_refl) as H5.
  unfold settingsFormSchema_safeParse in Hparse. cbv zeta in Hparse.
  destruct (violates vals "temperature") eqn:V1,
    (violates vals "maxTokens") eqn:V2,
    (violates vals "topP") eqn:V3,
    (violates vals "frequencyPenalty") eqn:V4,
    (violates vals "presencePenalty") eqn:V5;
    repeat match goal with
           | H : ∃ _, _ |- _ => destruct H as [? H]
           end;
    rewrite H1, H2, H3, H4, H5 in Hparse;
    cbv beta iota in Hparse;
    try discriminate;
    injection Hparse as <-;
    (split;
     [ set_unfold; intros ([path i] & -> & Hin); cbn;
       repeat (destruct Hin as [Hin | Hin]);
       repeat match goal with
              | H : ∃ _, _ |- _ => destruct H as [? H]
              | H : _ ∧ _ |- _ => destruct H as [H ?]
              end;
       try done; by simplify_eq
     | intros Hv; pose proof (violates_schema_field _ _ Hv) as Hfield;
       unfold schema_fields, optional_fields in Hfield;
       repeat (apply elem_of_cons in Hfield as [-> | Hfield];
               [first [congruence
                      | repeat first [rewrite fmap_app | rewrite fmap_cons
                                     | rewrite elem_of_app
                                     | rewrite elem_of_cons];
                        cbn [fst]; solve [auto 12]]|]);
       by apply elem_of_nil in Hfield ]).
Qed.

Lemma parseErrorSchema_dom issues (acc : gmap string FieldError) key :
  is_Some (parseErrorSchema issues acc !! key)
  ↔ is_Some (acc !! key) ∨ key ∈ issues.*1.
Proof.
  revert acc. induction issues as [|[p i] rest IH]; intros acc; cbn.
  - rewrite elem_of_nil. split; [by left | by intros [? | []]].
  - rewrite IH, elem_of_cons. destruct (acc !! p) eqn:E.
    + split.
      * intros [Hacc | Hrest]; [by left | by right; right].
      * intros [Hacc | [Hkey | Hrest]]; [by left | | by right].
        subst. left. by eexists.
    + rewrite lookup_insert. case_decide; subst.
      * split; [intros _; right; by left|]. intros _. left. by eexists.
      * split.
        -- intros [Hacc | Hrest]; [by left | by right; right].
        -- intros [Hacc | [Hkey | Hrest]]; [by left | done | by right].
Qed.

(** ** Further properties of the submit *)

Lemma valid_no_violation vals key :
  valid vals = true → violates vals key = false.
Proof.
  intros Hvalid. destruct (violates vals key) eqn:Hv; [|done].
  pose proof (violates_schema_field _ _ Hv) as Hfield.
  unfold valid, optional_fields in Hvalid. cbn [forallb] in Hvalid.
  rewrite !andb_true_iff, !negb_true_iff in Hvalid.
  destruct Hvalid as (H1 & H2 & H3 & H4 & H5 & _).
  unfold schema_fields, optional_fields in Hfield.
  repeat (apply elem_of_cons in Hfield as [-> | Hfield]; [congruence|]).
  by apply elem_of_nil in Hfield.
Qed.

Lemma onSubmit_returns net data st :
  onSubmit net data st = (inr tt, exec (onSubmit net data) st).
Proof.
  destruct st as [l [] v e t r ti c].
  - reflexivity.
  - destruct net as [[m | x] | [[] j]]; reflexivity.
Qed.

(** The two ways a submit can go. *)
Lemma handleSubmit_cases net st :
  (valid (values st) = true
   ∧ handleSubmit net st
     = (inr tt,
        exec (onSubmit net (parsed_form (values st))) (with_errors ∅ st)))
  ∨ (valid (values st) = false
     ∧ ∃ issues,
         settingsFormSchema_safeParse (values st) = inl issues
         ∧ handleSubmit net st
           = (inr tt, with_errors (parseErrorSchema issues ∅) st)).
Proof.
  destruct (valid (values st)) eqn:Hvalid.
  - left. split; [done|].
    unfold handleSubmit, bind, gets. rewrite (zodResolver_valid _ Hvalid).
    cbn [setErrors modify]. rewrite onSubmit_returns. by destruct st.
  - right. split; [done|].
    destruct (settingsFormSchema_safeParse (values st))
      as [issues | data] eqn:E.
    + exists issues. split; [done|].
      unfold handleSubmit, bind, gets, zodResolver. rewrite E.
      by destruct st.
    + assert (valid (values st) = true); [|congruence].
      apply (zodResolver_inr _ data). unfold zodResolver. by rewrite E.
Qed.

Lemma submitted_fields_valid vals key v :
  valid vals = true → (key, v) ∈ submitted_fields vals →
  ∃ n, v = JNum n ∧ key ∈ schema_fields ∧ in_domain key n = true.
Proof.
  unfold valid; cbn -[field ToNumber within positive_integer present].
  rewrite !andb_true_iff, !negb_true_iff, negb_false_iff.
  intros (Ht & Hm & Hp & Hf & Hpp & _).
  unfold submitted_fields, submitted_optional, schema_fields, optional_fields.
  cbn [flat_map]. rewrite elem_of_cons, !elem_of_app.
  intros [Heq | [Hin | [Hin | [Hin | [Hin | Hin]]]]].
  - injection Heq as -> ->. eexists. split; [done|].
    split; [apply list_elem_of_here | exact Ht].
  - destruct (present (field vals "maxTokens")); [|by apply elem_of_nil in Hin].
    apply list_elem_of_singleton in Hin. injection Hin as -> ->.
    eexists. split; [done|].
    split; [rewrite !elem_of_cons; auto 10|].
    by apply negb_false_iff in Hm.
  - destruct (present (field vals "topP")); [|by apply elem_of_nil in Hin].
    apply list_elem_of_singleton in Hin. injection Hin as -> ->.
    eexists. split; [done|].
    split; [rewrite !elem_of_cons; auto 10|].
    by apply negb_false_iff in Hp.
  - destruct (present (field vals "frequencyPenalty"));
      [|by apply elem_of_nil in Hin].
    apply list_elem_of_singleton in Hin. injection Hin as -> ->.
    eexists. split; [done|].
    split; [rewrite !elem_of_cons; auto 10|].
    by apply negb_false_iff in Hf.
  - destruct (present (field vals "presencePenalty"));
      [|by apply elem_of_nil in Hin].
    apply list_elem_of_singleton in Hin. injection Hin as -> ->.
    eexists. split; [done|].
    split; [rewrite !elem_of_cons; auto 10|].
    by apply negb_false_iff in Hpp.
  - by apply elem_of_nil in Hin.
Qed.

Lemma handleSubmit_errors_dom st net key :
  is_Some (errors (exec (handleSubmit net) st) !! key)
  ↔ violates (values st) key = true.
Proof.
  unfold exec.
  destruct (handleSubmit_cases net st)
    as [[Hvalid ->] | [Hvalid (issues & Hparse & ->)]]; cbn [snd].
  - rewrite (valid_no_violation _ key Hvalid).
    assert (errors (exec (onSubmit net (parsed_form (values st)))
                      (with_errors ∅ st)) = ∅) as ->.
    { destruct (useMockData st) eqn:Hmode.
      - by rewrite onSubmit_mock by (by destruct st).
      - by rewrite onSubmit_live by (by destruct st). }
    rewrite lookup_empty. split; [by intros [? ?] | done].
  - cbn [with_errors errors]. rewrite parseErrorSchema_dom, lookup_empty.
    rewrite (safeParse_paths _ _ key Hparse).
    split; [intros [[? ?] | ?]; done | by right].
Qed.

(** X7. After any submit the form holds an error for a field exactly when
    that field breaks its domain: violations are all reported at once, a
    field within its domain is never flagged, and the errors of an earlier
    submit do not survive. In particular the errors are empty exactly when
    the values are valid. *)
Theorem submit_errors_name_violations st net key :
  (is_Some (errors (exec (handleSubmit net) st) !! key)
   ↔ violates (values st) key = true)
  ∧ (errors (exec (handleSubmit net) st) = ∅ ↔ valid (values st) = true).
Proof.
  split; [apply handleSubmit_errors_dom|].
  rewrite map_empty. split.
  - intros Hnone. unfold valid, optional_fields. cbn [forallb].
    rewrite !andb_true_iff, !negb_true_iff.
    repeat split;
      match goal with
      | |- violates _ ?name = false =>
          destruct (violates (values st) name) eqn:Hv; [|done];
          apply (handleSubmit_errors_dom st net) in Hv as [e He];
          by rewrite Hnone in He
      end.
  - intros Hvalid name.
    destruct (errors (exec (handleSubmit net) st) !! name) eqn:He; [|done].
    assert (violates (values st) name = true) as Hv
      by (apply (handleSubmit_errors_dom st net); by eexists).
    by rewrite (valid_no_violation _ name Hvalid) in Hv.
Qed.

(** X8. A submit never throws and never modifies the edit buffer, whatever
    the values, the mode and the network; the timer of a simulated save
    does not modify it either. *)
Theorem submit_returns_and_keeps_buffer st net :
  ∃ st',
    handleSubmit net st = (inr tt, st')
    ∧ values st' = values st
    ∧ values (exec runTimers st') = values st.
Proof.
  destruct (handleSubmit_cases net st)
    as [[Hvalid ->] | [Hvalid (issues & Hparse & ->)]];
    eexists; (split; [reflexivity|]); rewrite runTimers_summary;
    cbn [values with_errors]; [|done].
  destruct (useMockData st) eqn:Hmode.
  - by rewrite onSubmit_mock by (by destruct st).
  - by rewrite onSubmit_live by (by destruct st).
Qed.

(** X9. A submit issues a request exactly when the values are valid and
    the session is live, and then exactly one, the PUT of the submitted
    fields; invalid values and demo mode never reach the network, not even
    when the timers expire. *)
Theorem submit_requests st net :
  let st' := exec (handleSubmit net) st in
  requests st'
  = requests st
    ++ (if valid (values st) && negb (useMockData st)
        then [put_settings_request (JObj (submitted_fields (values st)))]
        else [])
  ∧ requests (exec runTimers st') = requests st'.
Proof.
  intros st'. subst st'. rewrite runTimers_summary. cbn [requests].
  split; [|done]. unfold exec.
  destruct (handleSubmit_cases net st)
    as [[Hvalid ->] | [Hvalid (issues & Hparse & ->)]];
    rewrite Hvalid; cbn [snd andb].
  - destruct (useMockData st) eqn:Hmode; cbn [negb].
    + rewrite onSubmit_mock by (by destruct st). cbn. by rewrite app_nil_r.
    + rewrite onSubmit_live by (by destruct st). cbn.
      by rewrite (stringify_parsed _ Hvalid).
  - cbn. by rewrite app_nil_r.
Qed.

(** X10. Once the timers have expired, a submit of valid values has
    produced exactly one notification and a submit of invalid values
    none. *)
Theorem submit_notifies_exactly_once st net :
  length (toasts (exec runTimers (exec (handleSubmit net) st)))
  = (length (toasts (exec runTimers st))
     + (if valid (values st) then 1 else 0))%nat.
Proof.
  rewrite !runTimers_summary. cbn [toasts]. unfold exec.
  destruct (handleSubmit_cases net st)
    as [[Hvalid ->] | [Hvalid (issues & Hparse & ->)]];
    rewrite Hvalid; cbn [snd].
  - destruct (useMockData st) eqn:Hmode.
    + rewrite onSubmit_mock by (by destruct st). cbn.
      rewrite !length_app, !length_fmap, length_app. cbn. lia.
    + rewrite onSubmit_live by (by destruct st). cbn.
      rewrite !length_app, !length_fmap. cbn. lia.
  - cbn. rewrite !length_app, !length_fmap. lia.
Qed.

(** X11. A submit of valid values does not leave the form disabled: in
    live mode the loading flag is cleared when the submit returns, whether
    the write succeeded or failed; in demo mode it stays set until the
    timer expires and is cleared then. *)
Theorem valid_submit_releases_form st net :
  valid (values st) = true →
  isLoading (exec (handleSubmit net) st) = useMockData st
  ∧ isLoading (exec runTimers (exec (handleSubmit net) st)) = false.
Proof.
  intros Hvalid. rewrite runTimers_summary. cbn [isLoading].
  rewrite (handleSubmit_valid _ _ Hvalid).
  destruct (useMockData st) eqn:Hmode.
  - rewrite onSubmit_mock by (by destruct st). cbn.
    split; [done|]. by destruct (timers st).
  - rewrite onSubmit_live by (by destruct st). cbn.
    split; [done|]. by destruct (timers st).
Qed.

(** X12. A failed write can be retried by submitting again: the failure
    leaves the form as it was, so the second submit sends the very same
    payload, and the user sees the error and then the outcome of the
    retry. *)
Theorem failed_submit_can_be_retried st net1 net2 :
  valid (values st) = true → useMockData st = false →
  write_fails net1 = true →
  let put := put_settings_request (JObj (submitted_fields (values st))) in
  let st2 := exec (handleSubmit net2) (exec (handleSubmit net1) st) in
  requests st2 = requests st ++ [put; put]
  ∧ toasts st2
    = toasts st
      ++ [{| toast_type := toast_error; description := failure_reason net1 |};
          submit_toast net2].
Proof.
  intros Hvalid Hlive Hfail put st2. subst put st2.
  rewrite (handleSubmit_valid net1 _ Hvalid).
  rewrite onSubmit_live by (by destruct st).
  rewrite handleSubmit_valid by exact Hvalid.
  rewrite onSubmit_live by done. cbn.
  rewrite (stringify_parsed _ Hvalid), <- !app_assoc.
  unfold submit_toast at 1. by rewrite Hfail.
Qed.

(** X13. Whatever a submit sends satisfies the data model: every request
    it adds is a PUT to the settings endpoint whose body has a
    [temperature] in [0, 2] and otherwise only fields of the schema, each a
    finite number within its domain. *)
Theorem submit_sends_only_valid_settings st net req :
  req ∈ requests (exec (handleSubmit net) st) →
  req ∈ requests st
  ∨ (req_method req = "PUT" ∧ req_url req = "/api/profile/settings"
     ∧ ∃ body,
         req_body req = Some (JObj body)
         ∧ (∃ t, assoc "temperature" body = Some (JNum t)
                 ∧ within 0 2 t = true)
         ∧ ∀ key v,
             (key, v) ∈ body →
             ∃ n, v = JNum n ∧ key ∈ schema_fields
                  ∧ in_domain key n = true).
Proof.
  unfold exec.
  destruct (handleSubmit_cases net st)
    as [[Hvalid ->] | [Hvalid (issues & Hparse & ->)]]; cbn [snd];
    [|by left].
  destruct (useMockData st) eqn:Hmode.
  - rewrite onSubmit_mock by (by destruct st). by left.
  - rewrite onSubmit_live by (by destruct st). cbn [requests with_errors].
    rewrite elem_of_app, list_elem_of_singleton, (stringify_parsed _ Hvalid).
    intros [Hold | ->]; [by left | right]. cbn.
    split; [done|]. split; [done|].
    exists (submitted_fields (values st)). split; [done|]. split.
    + eexists. split; [reflexivity|].
      pose proof (valid_no_violation _ "temperature" Hvalid) as Ht.
      by apply negb_false_iff in Ht.
    + intros key v. by apply submitted_fields_valid.
Qed.

Lemma handleSubmit_refuses net st key :
  violates (values st) key = true →
  ∃ issues,
    settingsFormSchema_safeParse (values st) = inl issues
    ∧ key ∈ issues.*1
    ∧ exec (handleSubmit net) st
      = with_errors (parseErrorSchema issues ∅) st.
Proof.
  intros Hv. unfold exec.
  destruct (handleSubmit_cases net st)
    as [[Hvalid _] | [_ (issues & Hparse & ->)]].
  - by rewrite (valid_no_violation _ key Hvalid) in Hv.
  - exists issues. split; [done|]. split; [|done].
    by apply (safeParse_paths _ _ key Hparse).
Qed.

(** X14. An emptied [maxTokens] input blocks the save. The empty string
    converts to the number 0, which is not positive: the submit is refused
    with an error on [maxTokens], and no request or notification goes
    out. *)
Theorem emptied_maxTokens_is_refused st net :
  StringToNumber "" = Finite 0 →
  field (values st) "maxTokens" = JStr "" →
  let st' := exec (handleSubmit net) st in
  is_Some (errors st' !! "maxTokens")
  ∧ requests st' = requests st
  ∧ toasts st' = toasts st.
Proof.
  intros Hempty Hfield st'. subst st'.
  assert (violates (values st) "maxTokens" = true) as Hv.
  { unfold violates. cbn -[field ToNumber]. rewrite Hfield. cbn.
    by rewrite Hempty. }
  destruct (handleSubmit_refuses net _ _ Hv) as (issues & _ & Hin & ->).
  cbn. split; [|done]. apply parseErrorSchema_dom. by right.
Qed.

Lemma submitted_fields_optional vals key :
  key ∈ optional_fields → present (field vals key) = true →
  (key, JNum (ToNumber (field vals key))) ∈ submitted_fields vals.
Proof.
  intros Hkey Hpresent. unfold submitted_fields, optional_fields in *.
  apply list_elem_of_further. cbn [flat_map]. unfold submitted_optional.
  repeat (apply elem_of_cons in Hkey as [-> | Hkey];
          [rewrite Hpresent, ?elem_of_app, ?list_elem_of_singleton; auto 10|]).
  by apply elem_of_nil in Hkey.
Qed.

(** X15. An emptied [topP] or penalty input is not treated as absent: the
    empty string converts to 0, which lies in the field's domain, so a
    live save sends that field with the value 0. *)
Theorem emptied_optional_is_saved_as_zero st net key :
  StringToNumber "" = Finite 0 →
  valid (values st) = true → useMockData st = false →
  key ∈ ["topP"; "frequencyPenalty"; "presencePenalty"] →
  field (values st) key = JStr "" →
  ∃ body,
    requests (exec (handleSubmit net) st)
    = requests st ++ [put_settings_request (JObj body)]
    ∧ (key, JNum (Finite 0)) ∈ body.
Proof.
  intros Hempty Hvalid Hlive Hkey Hfield.
  exists (submitted_fields (values st)). split.
  - rewrite (handleSubmit_valid _ _ Hvalid).
    rewrite onSubmit_live by (by destruct st). cbn.
    by rewrite (stringify_parsed _ Hvalid).
  - assert (JNum (Finite 0) = JNum (ToNumber (field (values st) key))) as ->.
    { rewrite Hfield. cbn. by rewrite Hempty. }
    apply submitted_fields_optional; [|by rewrite Hfield].
    unfold optional_fields. by apply list_elem_of_further.
Qed.

(** ** Loading and then submitting *)

(** X16. After a failed load, saving the form as it stands always works
    and never writes: the built-in defaults pass validation, the only
    request ever issued is the initial GET, and once the timer has expired
    the user has seen the sample-settings warning and then the success
    message, with the form enabled and free of errors. *)
Theorem failed_load_then_submit net net' st :
  load_fails net = true → timers st = [] →
  let st1 := exec (fetchSettings net) st in
  let st2 := exec runTimers (exec (handleSubmit net') st1) in
  requests st2 = requests st ++ [get_settings_request]
  ∧ toasts st2 = toasts st ++ [sample_settings_toast; mock_saved_toast]
  ∧ errors st2 = ∅
  ∧ isLoading st2 = false
  ∧ useMockData st2 = true.
Proof.
  intros Hfail Htimers st1 st2. subst st1 st2.
  rewrite (fetchSettings_fails _ _ Hfail).
  rewrite handleSubmit_valid.
  - rewrite onSubmit_mock by done. rewrite runTimers_summary. cbn.
    rewrite Htimers, <- app_assoc. cbn. by destruct (timers st).
  - unfold valid, violates, field. cbn [values forallb].
    by simplify_map_eq.
Qed.

Lemma submitted_fields_number vals key n :
  key ∈ schema_fields → field vals key = JNum n →
  (key, JNum n) ∈ submitted_fields vals.
Proof.
  intros Hkey Hfield. unfold schema_fields in Hkey.
  apply elem_of_cons in Hkey as [-> | Hkey].
  - unfold submitted_fields. rewrite Hfield. apply list_elem_of_here.
  - assert (JNum n = JNum (ToNumber (field vals key))) as ->
      by (by rewrite Hfield).
    apply submitted_fields_optional; [done | by rewrite Hfield].
Qed.

(** X17. Load, then save without editing: when the field names of the
    loaded record are plain and the loaded form is valid, the PUT that
    follows the GET carries every schema field the store returned as a
    number, with the very value that was returned. *)
Theorem load_then_save_round_trip r data props st net key n :
  ok r = true → json r = inr data →
  data_settings data = inr (JObj props) →
  NoDup props.*1 → plain_names props = true →
  valid (values (exec (fetchSettings (fetch_resolved r)) st)) = true →
  key ∈ schema_fields → (key, JNum n) ∈ props →
  ∃ body,
    requests (exec (handleSubmit net)
                (exec (fetchSettings (fetch_resolved r)) st))
    = requests st
      ++ [get_settings_request; put_settings_request (JObj body)]
    ∧ (key, JNum n) ∈ body.
Proof.
  intros Hok Hjson Hset Hnd Hplain Hvalid Hkey Hin.
  exists (submitted_fields
            (values (exec (fetchSettings (fetch_resolved r)) st))).
  split.
  - rewrite (handleSubmit_valid _ _ Hvalid).
    rewrite onSubmit_live
      by (by rewrite (fetchSettings_succeeds _ _ _ _ Hok Hjson Hset)).
    cbn [requests with_errors]. rewrite (stringify_parsed _ Hvalid).
    rewrite (fetchSettings_succeeds _ _ _ _ Hok Hjson Hset) at 1.
    cbn [requests]. by rewrite <- app_assoc.
  - apply submitted_fields_number; [done|]. unfold field.
    rewrite (fetchSettings_succeeds _ _ _ _ Hok Hjson Hset).
    cbn [values ToBoolean Object_entries].
    rewrite (foldl_write_present copied props _ key (JNum n)); [done..|].
    unfold copied, not_bookkeeping, schema_fields, optional_fields in *.
    repeat (apply elem_of_cons in Hkey as [-> | Hkey]; [done|]).
    by apply elem_of_nil in Hkey.
Qed.

(** ** The rendered form after a load and after a submit *)

Lemma fetchSettings_flags net st :
  isLoading (exec (fetchSettings net) st) = false
  ∧ useMockData (exec (fetchSettings net) st) = load_fails net.
Proof.
  destruct (load_fails net) eqn:Hfail.
  - by rewrite (fetchSettings_fails _ _ Hfail).
  - destruct (load_succeeds_inv _ Hfail)
      as (r & data & settings & -> & Hok & Hjson & Hset).
    by rewrite (fetchSettings_succeeds _ _ _ _ Hok Hjson Hset).
Qed.

Lemma render_inr st v :
  render st = inr v →
  demo_banner v
  = (if useMockData st then Some "Demo Mode: Using sample settings" else None)
  ∧ inputs_disabled v = isLoading st
  ∧ button_disabled v = isLoading st
  ∧ button_text v = (if isLoading st then "Saving..." else "Save Settings")
  ∧ error_lines v = omap (error_line st) schema_fields.
Proof.
  unfold render. destruct (temperature_text _); [done|].
  by intros [= <-].
Qed.

(** X18. Once a load has settled, whatever its outcome, the rendered form
    is enabled and its button reads "Save Settings"; the demo banner is
    shown exactly when the load failed. *)
Theorem form_after_load net st v :
  render (exec (fetchSettings net) st) = inr v →
  demo_banner v
  = (if load_fails net then Some "Demo Mode: Using sample settings" else None)
  ∧ inputs_disabled v = false
  ∧ button_disabled v = false
  ∧ button_text v = "Save Settings".
Proof.
  intros Hrender.
  destruct (render_inr _ _ Hrender) as (-> & -> & -> & -> & _).
  destruct (fetchSettings_flags net st) as [-> ->]. done.
Qed.

(** X19. After a failed load the form always renders: the temperature
    label is computed from the default 0.7, so the banner and the label
    are there whatever the edit buffer held before. *)
Theorem form_renders_after_failed_load net st :
  load_fails net = true →
  ∃ v,
    render (exec (fetchSettings net) st) = inr v
    ∧ demo_banner v = Some "Demo Mode: Using sample settings"
    ∧ temperature_label v
      = (if ToBoolean (JStr (Number_toFixed (Finite 0.7) 1))
         then JStr (Number_toFixed (Finite 0.7) 1)
         else JNum (Finite 0.7)).
Proof.
  intros Hfail. unfold render, watch, field.
  rewrite (fetchSettings_fails _ _ Hfail). cbn [values useMockData].
  rewrite !lookup_insert_ne by done. rewrite lookup_insert_eq.
  cbn [default temperature_text]. eexists. by split.
Qed.

(** X20. The loader copies the stored temperature without checking its
    type, and the label can only be computed from a number: after a
    successful load of a record whose field names are plain, the form
    renders if and only if the stored temperature is a number (or carries
    no value); a temperature stored as a string, a boolean, an array or an
    object makes the render throw. *)
Theorem stored_temperature_must_be_number r data props st v :
  ok r = true → json r = inr data →
  data_settings data = inr (JObj props) →
  NoDup props.*1 → plain_names props = true →
  ("temperature", v) ∈ props → v ≠ JNull →
  (∃ view, render (exec (fetchSettings (fetch_resolved r)) st) = inr view)
  ↔ nullish_or_number v = true.
Proof.
  intros Hok Hjson Hset Hnd Hplain Hin Hnull. unfold render, watch, field.
  rewrite (fetchSettings_succeeds _ _ _ _ Hok Hjson Hset).
  cbn [values ToBoolean Object_entries].
  rewrite (foldl_write_present copied props _ "temperature" v);
    [|done..|by destruct v].
  cbn [default].
  destruct v; cbn; split; try done; try (by intros [? ?]); eauto.
Qed.

(** X21. After any submit the rendered form shows a message under a field
    exactly when that field breaks its domain. *)
Theorem form_shows_violations st net v key :
  render (exec (handleSubmit net) st) = inr v →
  key ∈ (error_lines v).*1 ↔ violates (values st) key = true.
Proof.
  intros Hrender. destruct (render_inr _ _ Hrender) as (_ & _ & _ & _ & ->).
  pose proof (handleSubmit_errors_dom st net key) as Herrors.
  rewrite <- Herrors, list_elem_of_fmap. split.
  - intros ([name msg] & -> & Hline). apply list_elem_of_omap in Hline
      as (name' & _ & Hline). unfold error_line in Hline.
    destruct (errors _ !! name') eqn:E; [|done].
    injection Hline as <- <-. by eexists.
  - intros [e He]. exists (key, message e). split; [done|].
    apply list_elem_of_omap. exists key. split.
    + apply violates_schema_field with (values st). apply Herrors.
      by eexists.
    + unfold error_line. by rewrite He.
Qed.

End Component.

(** ** The slogan tool: specified behaviour *)

Lemma falsy_unset_or_empty v :
  Slogan.falsy v = true ↔ Slogan.unset_or_empty v.
Proof.
  unfold Slogan.unset_or_empty. destruct v as [s|]; cbn.
  - rewrite String.eqb_eq. split; [intros ->; by right|].
    by intros [|[= ->]].
  - split; [by left | done].
Qed.

(** C8, as the code has it. The tool throws without issuing a request if
    and only if the endpoint URL or the credential is unset or empty in the
    environment. Otherwise it issues exactly one POST to the configured URL,
    with the credential as bearer token and the prompt as body, and what it
    returns is what the response's [json()] yields, unchanged. *)
Theorem slogan_fails_iff_unset_or_empty env net prompt :
  (Slogan.fails_immediately env net prompt
   ↔ Slogan.unset_or_empty (env !! "NOVA_AI_API_URL")
     ∨ Slogan.unset_or_empty (env !! "NOVA_AI_API_KEY"))
  ∧ ∀ url key,
      env !! "NOVA_AI_API_URL" = Some url → url ≠ "" →
      env !! "NOVA_AI_API_KEY" = Some key → key ≠ "" →
      (Slogan.execute env net prompt).1
      = [Slogan.slogan_request url key prompt]
      ∧ ∀ response,
          net = fetch_resolved response →
          (Slogan.execute env net prompt).2 = json response.
Proof.
  split.
  - rewrite <- !falsy_unset_or_empty, <- orb_true_iff.
    unfold Slogan.fails_immediately, Slogan.execute.
    destruct (Slogan.falsy (env !! "NOVA_AI_API_URL")
              || Slogan.falsy (env !! "NOVA_AI_API_KEY")).
    + split; [done | eauto].
    + split; [|done]. intros [e He]. by destruct net.
  - intros url key Hurl Hu Hkey Hk. unfold Slogan.execute.
    rewrite Hurl, Hkey. cbn.
    apply String.eqb_neq in Hu, Hk. rewrite Hu, Hk. cbn.
    split; [by destruct net|]. by intros response ->.
Qed.

(** C8, as stated, fails: with the URL set to the empty string both
    variables are present in the environment, and still the tool throws
    without issuing a request. *)
Lemma slogan_empty_url_counterexample :
  ¬ (Slogan.fails_immediately Slogan.sample_env_empty_url
       Slogan.sample_answer "spring sale"
     ↔ Slogan.sample_env_empty_url !! "NOVA_AI_API_URL" = None
       ∨ Slogan.sample_env_empty_url !! "NOVA_AI_API_KEY" = None).
Proof.
  intros [Hthrows _].
  destruct Hthrows as [Hurl | Hkey].
  - eexists. reflexivity.
  - vm_compute in Hurl. discriminate.
  - vm_compute in Hkey. discriminate.
Qed.

(** ** The properties at sample inputs *)

(** The field names of the samples are plain, so the parameter for path
    names is never consulted on them. *)
Local Abbreviation sample_fetchSettings := (fetchSettings (fun m _ _ => m)).

Lemma slogan_fails_iff_unset_or_empty_witness :
  (Slogan.execute Slogan.sample_env Slogan.sample_answer "spring sale").1
  = [Slogan.slogan_request "https://nova.example/v1/slogan" "secret"
       "spring sale"]
  ∧ (Slogan.execute Slogan.sample_env Slogan.sample_answer "spring sale").2
    = inr (JObj [("slogan", JStr "Just ship it")]).
Proof.
  destruct (slogan_fails_iff_unset_or_empty Slogan.sample_env
              Slogan.sample_answer "spring sale") as [_ Hsend].
  destruct (Hsend "https://nova.example/v1/slogan" "secret")
    as [Hreq Hres]; [reflexivity | discriminate | reflexivity | discriminate |].
  split; [exact Hreq|]. exact (Hres _ eq_refl).
Defined.

Lemma load_failure_yields_defaults_witness :
  load_fails sample_network_error = true
  ∧ values (exec (sample_fetchSettings sample_network_error) initial_state)
    = list_to_map (Object_entries MOCK_SETTINGS)
  ∧ useMockData (exec (sample_fetchSettings sample_network_error) initial_state)
    = true
  ∧ toasts (exec (sample_fetchSettings sample_network_error) initial_state)
    = [sample_settings_toast].
Proof.
  split; [reflexivity|].
  destruct (load_failure_yields_defaults (fun m _ _ => m) sample_network_error
              initial_state
              eq_refl) as (_ & _ & _ & _ & _ & Hmode & Htoast & Hvalues).
  split; [exact Hvalues|]. split; [exact Hmode | exact Htoast].
Defined.





(** The sample forms hold numbers only, so the three built-ins are never
    consulted on them; they are instantiated by constant functions. *)
Local Abbreviation sample_handleSubmit :=
  (handleSubmit (fun _ : string => NaN) (fun _ : JsValue => "")
     (fun _ : number => "")).
Local Abbreviation sample_valid :=
  (valid (fun _ : string => NaN) (fun _ : JsValue => "")).

Lemma absent_optionals_are_valid_witness :
  Forall (fun key => field defaultValues key = JUndefined) optional_fields
  ∧ zodResolver (fun _ : string => NaN) (fun _ : JsValue => "")
      (fun _ : number => "") defaultValues
    = inr {| temperature := Finite 0.7; maxTokens := None; topP := None;
             frequencyPenalty := None; presencePenalty := None |}.
Proof.
  assert (Forall (fun key => field defaultValues key = JUndefined)
            optional_fields) as Habsent
    by (repeat constructor).
  split; [exact Habsent|].
  exact (absent_optionals_are_valid (fun _ => NaN) (fun _ => "")
           (fun _ => "") defaultValues eq_refl Habsent).
Defined.

Lemma invalid_submit_is_rejected_locally_witness :
  violates (fun _ : string => NaN) (fun _ : JsValue => "")
    (values sample_topP_too_big) "topP" = true
  ∧ (∃ e, errors (exec (sample_handleSubmit sample_write_ok)
                    sample_topP_too_big) !! "topP" = Some e
          ∧ message e ≠ "")
  ∧ requests (exec (sample_handleSubmit sample_write_ok) sample_topP_too_big)
    = [].
Proof.
  split; [reflexivity|].
  destruct (invalid_submit_is_rejected_locally (fun _ => NaN) (fun _ => "")
              (fun _ => "") sample_topP_too_big sample_write_ok "topP"
              eq_refl) as (Herr & Hreq & _).
  split; [exact Herr | exact Hreq].
Defined.

Lemma demo_submit_succeeds_without_network_witness :
  sample_valid (values sample_demo) = true
  ∧ requests (exec runTimers
                (exec (sample_handleSubmit sample_write_ok) sample_demo))
    = []
  ∧ toasts (exec runTimers
              (exec (sample_handleSubmit sample_write_ok) sample_demo))
    = [mock_saved_toast].
Proof.
  split; [reflexivity|].
  destruct (demo_submit_succeeds_without_network (fun _ => NaN)
              (fun _ => "") (fun _ => "") sample_demo sample_write_ok
              eq_refl eq_refl) as (_ & _ & Hreq & Htoast).
  split; [exact Hreq | exact Htoast].
Defined.

Lemma live_submit_puts_submitted_fields_witness :
  sample_valid (values sample_live) = true
  ∧ requests (exec (sample_handleSubmit sample_write_ok) sample_live)
    = [put_settings_request
         (JObj [("temperature", JNum (Finite 1.2));
                ("maxTokens", JNum (Finite 2000))])]
  ∧ toasts (exec (sample_handleSubmit sample_write_ok) sample_live)
    = [saved_toast].
Proof.
  split; [reflexivity|].
  exact (live_submit_puts_submitted_fields (fun _ => NaN) (fun _ => "")
           (fun _ => "") sample_live sample_write_ok eq_refl eq_refl).
Defined.

Lemma failed_submit_keeps_edit_buffer_witness :
  write_fails sample_server_error = true
  ∧ values (exec (sample_handleSubmit sample_server_error) sample_live)
    = sample_edits
  ∧ toasts (exec (sample_handleSubmit sample_server_error) sample_live)
    = [{| toast_type := toast_error;
          description := "Failed to update settings" |}].
Proof.
  split; [reflexivity|].
  exact (failed_submit_keeps_edit_buffer (fun _ => NaN) (fun _ => "")
           (fun _ => "") sample_live sample_server_error
           eq_refl eq_refl eq_refl).
Defined.

(** ** Further properties of the slogan tool *)

(** X22. The tool throws in three cases and no other: the environment is
    not configured (its own error, always with the same message), the
    request is rejected, or the response body is not JSON; in the last two
    the error is passed on unchanged. It never issues more than one
    request. *)
Theorem slogan_throws_iff env net prompt e :
  ((Slogan.execute env net prompt).2 = inl e
   ↔ (Slogan.falsy (env !! "NOVA_AI_API_URL")
      || Slogan.falsy (env !! "NOVA_AI_API_KEY") = true
      ∧ e = ErrorObj "NovaAI is not configured")
     ∨ (Slogan.falsy (env !! "NOVA_AI_API_URL")
        || Slogan.falsy (env !! "NOVA_AI_API_KEY") = false
        ∧ (net = fetch_rejected e
           ∨ ∃ response, net = fetch_resolved response
                         ∧ json response = inl e)))
  ∧ (length (Slogan.execute env net prompt).1 ≤ 1)%nat.
Proof.
  unfold Slogan.execute.
  destruct (Slogan.falsy (env !! "NOVA_AI_API_URL")
            || Slogan.falsy (env !! "NOVA_AI_API_KEY")); cbn.
  - split; [|lia]. split.
    + intros [= <-]. by left.
    + intros [[_ ->] | [? _]]; done.
  - destruct net as [e' | response]; cbn; (split; [|lia]); split.
    + intros [= <-]. right. split; [done|]. by left.
    + intros [[? _] | [_ [[= ->] | (? & ? & _)]]]; done.
    + intros Hjson. right. split; [done|]. right. by exists response.
    + intros [[? _] | [_ [? | (? & [= <-] & ?)]]]; done.
Qed.

(** ** The further properties at sample inputs *)

Lemma load_keeps_uncopied_fields_witness :
  values (exec (sample_fetchSettings (fetch_resolved sample_load_ok))
            initial_state) !! "topP" = Some (JStr "")
  ∧ values (exec (sample_fetchSettings (fetch_resolved sample_load_ok))
              initial_state) !! "userId" = None.
Proof.
  split.
  - etrans; [|vm_compute; reflexivity].
    apply (load_keeps_uncopied_fields (fun m _ _ => m) sample_load_ok
             (JObj [("settings", JObj sample_stored_settings)])
             (JObj sample_stored_settings) initial_state "topP"
             eq_refl eq_refl eq_refl eq_refl).
    intros value Hin. left. apply list_elem_of_In in Hin. cbn in Hin.
    intuition congruence.
  - etrans; [|vm_compute; reflexivity].
    apply (load_keeps_uncopied_fields (fun m _ _ => m) sample_load_ok
             (JObj [("settings", JObj sample_stored_settings)])
             (JObj sample_stored_settings) initial_state "userId"
             eq_refl eq_refl eq_refl eq_refl).
    intros value _. right. apply list_elem_of_here.
Defined.

Lemma load_failure_keeps_other_fields_witness :
  values (exec (sample_fetchSettings sample_network_error)
            (with_values (<["notes" := JStr "draft"]> defaultValues)
               initial_state)) !! "notes"
  = Some (JStr "draft").
Proof.
  etrans.
  - apply (load_failure_keeps_other_fields (fun m _ _ => m)
             sample_network_error
             (with_values (<["notes" := JStr "draft"]> defaultValues)
                initial_state) "notes" eq_refl).
    apply (bool_decide_unpack _). vm_compute. exact I.
  - vm_compute. reflexivity.
Defined.

Lemma resolver_ignores_other_fields_witness :
  zodResolver (fun _ : string => NaN) (fun _ : JsValue => "")
    (fun _ : number => "") (<["id" := JStr "42"]> sample_edits)
  = zodResolver (fun _ : string => NaN) (fun _ : JsValue => "")
      (fun _ : number => "") sample_edits.
Proof.
  apply resolver_ignores_other_fields.
  apply (bool_decide_unpack _). vm_compute. exact I.
Defined.

Lemma valid_submit_releases_form_witness :
  isLoading (exec (sample_handleSubmit sample_write_ok) sample_demo) = true
  ∧ isLoading (exec runTimers
                 (exec (sample_handleSubmit sample_write_ok) sample_demo))
    = false.
Proof.
  exact (valid_submit_releases_form (fun _ => NaN) (fun _ => "")
           (fun _ => "") sample_demo sample_write_ok eq_refl).
Defined.

Lemma failed_submit_can_be_retried_witness :
  requests (exec (sample_handleSubmit sample_write_ok)
              (exec (sample_handleSubmit sample_server_error) sample_live))
  = [put_settings_request
       (JObj [("temperature", JNum (Finite 1.2));
              ("maxTokens", JNum (Finite 2000))]);
     put_settings_request
       (JObj [("temperature", JNum (Finite 1.2));
              ("maxTokens", JNum (Finite 2000))])]
  ∧ toasts (exec (sample_handleSubmit sample_write_ok)
              (exec (sample_handleSubmit sample_server_error) sample_live))
    = [{| toast_type := toast_error;
          description := "Failed to update settings" |};
       saved_toast].
Proof.
  exact (failed_submit_can_be_retried (fun _ => NaN) (fun _ => "")
           (fun _ => "") sample_live sample_server_error sample_write_ok
           eq_refl eq_refl eq_refl).
Defined.

Lemma submit_sends_only_valid_settings_witness :
  ∃ body,
    req_body (put_settings_request
                (JObj [("temperature", JNum (Finite 1.2));
                       ("maxTokens", JNum (Finite 2000))]))
    = Some (JObj body)
    ∧ (∃ t, assoc "temperature" body = Some (JNum t) ∧ within 0 2 t = true)
    ∧ ∀ key v,
        (key, v) ∈ body →
        ∃ n, v = JNum n ∧ key ∈ schema_fields ∧ in_domain key n = true.
Proof.
  assert (put_settings_request
            (JObj [("temperature", JNum (Finite 1.2));
                   ("maxTokens", JNum (Finite 2000))])
          ∈ requests (exec (sample_handleSubmit sample_write_ok) sample_live))
    as Hsent by (vm_compute; constructor).
  destruct (submit_sends_only_valid_settings (fun _ => NaN) (fun _ => "")
              (fun _ => "") sample_live sample_write_ok _ Hsent)
    as [Hold | (_ & _ & Hbody)].
  - vm_compute in Hold. inversion Hold.
  - exact Hbody.
Defined.

Local Abbreviation sample_StringToNumber :=
  (fun s : string => if String.eqb s "" then Finite 0 else NaN).

Lemma emptied_maxTokens_is_refused_witness :
  is_Some (errors (exec (handleSubmit sample_StringToNumber
                           (fun _ : JsValue => "") (fun _ : number => "")
                           sample_write_ok)
                     sample_emptied_maxTokens) !! "maxTokens")
  ∧ requests (exec (handleSubmit sample_StringToNumber
                      (fun _ : JsValue => "") (fun _ : number => "")
                      sample_write_ok)
                sample_emptied_maxTokens) = [].
Proof.
  destruct (emptied_maxTokens_is_refused sample_StringToNumber
              (fun _ => "") (fun _ => "") sample_emptied_maxTokens
              sample_write_ok eq_refl eq_refl) as (Herr & Hreq & _).
  split; [exact Herr | exact Hreq].
Defined.

Lemma emptied_optional_is_saved_as_zero_witness :
  ∃ body,
    requests (exec (handleSubmit sample_StringToNumber
                      (fun _ : JsValue => "") (fun _ : number => "")
                      sample_write_ok)
                sample_emptied_topP)
    = [put_settings_request (JObj body)]
    ∧ ("topP", JNum (Finite 0)) ∈ body.
Proof.
  apply (emptied_optional_is_saved_as_zero sample_StringToNumber
           (fun _ => "") (fun _ => "") sample_emptied_topP sample_write_ok
           "topP" eq_refl eq_refl eq_refl); [|reflexivity].
  apply list_elem_of_here.
Defined.

Lemma failed_load_then_submit_witness :
  requests (exec runTimers
              (exec (sample_handleSubmit sample_write_ok)
                 (exec (sample_fetchSettings sample_network_error) initial_state)))
  = [get_settings_request]
  ∧ toasts (exec runTimers
              (exec (sample_handleSubmit sample_write_ok)
                 (exec (sample_fetchSettings sample_network_error) initial_state)))
    = [sample_settings_toast; mock_saved_toast].
Proof.
  destruct (failed_load_then_submit (fun _ => NaN) (fun _ => "")
              (fun _ => "") (fun m _ _ => m) sample_network_error
              sample_write_ok
              initial_state eq_refl eq_refl) as (Hreq & Htoast & _).
  split; [exact Hreq | exact Htoast].
Defined.

Lemma load_then_save_round_trip_witness :
  ∃ body,
    requests (exec (handleSubmit sample_StringToNumber
                      (fun _ : JsValue => "") (fun _ : number => "")
                      sample_write_ok)
                (exec (sample_fetchSettings (fetch_resolved sample_load_ok))
                   initial_state))
    = [get_settings_request; put_settings_request (JObj body)]
    ∧ ("temperature", JNum (Finite 0.85)) ∈ body.
Proof.
  assert (NoDup sample_stored_settings.*1) as Hnd
    by (apply (bool_decide_unpack _); vm_compute; exact I).
  apply (load_then_save_round_trip sample_StringToNumber (fun _ => "")
           (fun _ => "") (fun m _ _ => m) sample_load_ok
           (JObj [("settings", JObj sample_stored_settings)])
           sample_stored_settings initial_state sample_write_ok
           "temperature" (Finite 0.85) eq_refl eq_refl eq_refl Hnd eq_refl).
  - vm_compute. reflexivity.
  - apply list_elem_of_here.
  - apply (list_elem_of_lookup_2 _ 1%nat). reflexivity.
Defined.

Lemma form_after_load_witness :
  ∃ v,
    render (fun _ _ => "0.7")
      (exec (sample_fetchSettings sample_network_error) initial_state) = inr v
    ∧ demo_banner v = Some "Demo Mode: Using sample settings"
    ∧ inputs_disabled v = false
    ∧ button_disabled v = false
    ∧ button_text v = "Save Settings".
Proof.
  eexists. split; [vm_compute; reflexivity|].
  apply (form_after_load (fun m _ _ => m) (fun _ _ => "0.7")
           sample_network_error
           initial_state).
  vm_compute. reflexivity.
Defined.

Lemma form_renders_after_failed_load_witness :
  ∃ v,
    render (fun _ _ => "0.7")
      (exec (sample_fetchSettings sample_server_error) initial_state) = inr v
    ∧ demo_banner v = Some "Demo Mode: Using sample settings"
    ∧ temperature_label v = JStr "0.7".
Proof.
  exact (form_renders_after_failed_load (fun m _ _ => m) (fun _ _ => "0.7")
           sample_server_error initial_state eq_refl).
Defined.

Lemma stored_temperature_must_be_number_witness :
  ¬ ∃ view,
      render (fun _ _ => "0.9")
        (exec (sample_fetchSettings
                 (fetch_resolved sample_load_string_temperature))
           initial_state) = inr view.
Proof.
  intros Hrenders.
  assert (nullish_or_number (JStr "0.85") = true) as Hnum; [|discriminate].
  apply (stored_temperature_must_be_number (fun m _ _ => m)
           (fun _ _ => "0.9") sample_load_string_temperature
           (JObj [("settings", JObj [("temperature", JStr "0.85")])])
           [("temperature", JStr "0.85")] initial_state (JStr "0.85")
           eq_refl eq_refl eq_refl).
  - apply (bool_decide_unpack _). vm_compute. exact I.
  - reflexivity.
  - apply list_elem_of_here.
  - discriminate.
  - exact Hrenders.
Defined.

Lemma form_shows_violations_witness :
  ∃ v,
    render (fun _ _ => "1.2")
      (exec (sample_handleSubmit sample_write_ok) sample_topP_too_big)
    = inr v
    ∧ "topP" ∈ (error_lines v).*1.
Proof.
  eexists. split; [vm_compute; reflexivity|].
  apply (form_shows_violations (fun _ => NaN) (fun _ => "") (fun _ => "")
           (fun _ _ => "1.2") sample_topP_too_big sample_write_ok).
  - vm_compute. reflexivity.
  - vm_compute. reflexivity.
Defined.
